(** * Box cleanup and recovery scripts: a shallow embedding.

    Models of [src/clean_box_folders.py] (class [BoxCleanup]) and
    [src/recover_box_files.py] (class [BoxRecovery]).  Strings are
    [String.string] over ASCII; Python's [str.lower], [str.strip],
    [in], [str.replace], [os.path.splitext] are written out below. *)

From Stdlib Require Import String Ascii List Bool ZArith Lia.
From Stdlib Require Import Floats.SpecFloat Floats.PrimFloat Floats.FloatOps.
From Stdlib Require Import Sorting.Sorted Sorting.Permutation.
Import ListNotations.
Open Scope string_scope.
#[local] Set Warnings "-register-all".

(* ------------------------------------------------------------------ *)
(** ** Python string primitives *)

Module Py.

(** [str.lower] on ASCII characters. *)
Definition lower_char (c : ascii) : ascii :=
  let n := nat_of_ascii c in
  if (65 <=? n)%nat && (n <=? 90)%nat then ascii_of_nat (n + 32) else c.

Fixpoint lower (s : string) : string :=
  match s with
  | EmptyString => EmptyString
  | String c r => String (lower_char c) (lower r)
  end.

(** [s.startswith(p)]. *)
Fixpoint startswith (s p : string) : bool :=
  match p, s with
  | EmptyString, _ => true
  | String c p', String d s' => Ascii.eqb c d && startswith s' p'
  | String _ _, EmptyString => false
  end.

(** [p in s]: substring containment. *)
Fixpoint contains (p s : string) : bool :=
  startswith s p ||
  match s with
  | EmptyString => false
  | String _ s' => contains p s'
  end.

(** [s.endswith(p)]. *)
Definition endswith (s p : string) : bool :=
  (String.length p <=? String.length s)%nat &&
  String.eqb (substring (String.length s - String.length p) (String.length p) s) p.

(** [s.replace(old, new)] with a non-empty [old]: every non-overlapping
    occurrence, scanning from the left. *)
Fixpoint replace_from (old new : string) (skip : nat) (s : string) : string :=
  match s with
  | EmptyString => EmptyString
  | String c r =>
      match skip with
      | S k => replace_from old new k r
      | O =>
          if startswith s old
          then new ++ replace_from old new (pred (String.length old)) r
          else String c (replace_from old new 0 r)
      end
  end.

Definition replace_all (old new s : string) : string := replace_from old new 0 s.

(** Characters for which [str.isspace] holds in the ASCII range
    (used by [str.strip()] with no argument). *)
Definition is_space (c : ascii) : bool :=
  let n := nat_of_ascii c in
  ((9 <=? n)%nat && (n <=? 13)%nat) || ((28 <=? n)%nat && (n <=? 32)%nat).

Fixpoint lstrip (s : string) : string :=
  match s with
  | EmptyString => EmptyString
  | String c r => if is_space c then lstrip r else s
  end.

Definition rev_string (s : string) : string :=
  string_of_list_ascii (rev (list_ascii_of_string s)).

(** [s.strip()]. *)
Definition strip (s : string) : string :=
  rev_string (lstrip (rev_string (lstrip s))).

(** Python truthiness of a string. *)
Definition truthy (s : string) : bool :=
  negb (String.eqb s "").

(** Index of the last ["."] of [s], if any. *)
Fixpoint last_dot_aux (i : nat) (s : string) (acc : option nat) : option nat :=
  match s with
  | EmptyString => acc
  | String c r =>
      last_dot_aux (S i) r (if Ascii.eqb c "."%char then Some i else acc)
  end.

Fixpoint last_sep_aux (i : nat) (s : string) (acc : option nat) : option nat :=
  match s with
  | EmptyString => acc
  | String c r =>
      last_sep_aux (S i) r (if Ascii.eqb c "/"%char then Some i else acc)
  end.

(** [posixpath.splitext(p)[1]] (genericpath._splitext with sep ["/"]
    and extsep ["."]): the suffix from the last dot, provided that dot
    comes after the last separator and some non-dot character of the
    base name precedes it; otherwise [""]. *)
Definition splitext_ext (p : string) : string :=
  let sep_index := match last_sep_aux 0 p None with Some i => Z.of_nat i | None => (-1)%Z end in
  match last_dot_aux 0 p None with
  | None => ""
  | Some d =>
      if (sep_index <? Z.of_nat d)%Z then
        let fname := Z.to_nat (sep_index + 1) in
        (* is some character of p[fname:d] different from '.'? *)
        let between := substring fname (d - fname) p in
        if existsb (fun c => negb (Ascii.eqb c "."%char)) (list_ascii_of_string between)
        then substring d (String.length p - d) p
        else ""
      else ""
  end.

(** [str(n)] for a Python [int]. *)
Fixpoint string_of_uint (u : Decimal.uint) : string :=
  match u with
  | Decimal.Nil => ""
  | Decimal.D0 r => String "0" (string_of_uint r)
  | Decimal.D1 r => String "1" (string_of_uint r)
  | Decimal.D2 r => String "2" (string_of_uint r)
  | Decimal.D3 r => String "3" (string_of_uint r)
  | Decimal.D4 r => String "4" (string_of_uint r)
  | Decimal.D5 r => String "5" (string_of_uint r)
  | Decimal.D6 r => String "6" (string_of_uint r)
  | Decimal.D7 r => String "7" (string_of_uint r)
  | Decimal.D8 r => String "8" (string_of_uint r)
  | Decimal.D9 r => String "9" (string_of_uint r)
  end.

Definition str_of_Z (z : Z) : string :=
  match z with
  | Z0 => "0"
  | Zpos p => string_of_uint (Pos.to_uint p)
  | Zneg p => "-" ++ string_of_uint (Pos.to_uint p)
  end.

End Py.

(* ------------------------------------------------------------------ *)
(** ** Python numbers: [int(x)] for a float *)

Module PyNum.

(** [int(f)] for a Python float [f] (an IEEE double, read through
    [Prim2SF]): truncation toward zero; [inf] raises [OverflowError]
    and [nan] raises [ValueError]. *)
Definition int_of_spec_float (f : spec_float) : option Z :=
  match f with
  | S754_zero _ => Some 0%Z
  | S754_infinity _ => None
  | S754_nan => None
  | S754_finite s m e =>
      let mag := if (0 <=? e)%Z then (Zpos m * 2 ^ e)%Z else (Zpos m / 2 ^ (- e))%Z in
      Some (if s then (- mag)%Z else mag)
  end.

Definition int_of_float (f : float) : option Z := int_of_spec_float (Prim2SF f).

End PyNum.

(* ------------------------------------------------------------------ *)
(** ** clean_box_folders.py: file classification *)

Module Classify.

Definition DATA_FILE_EXTENSIONS : list string :=
  [".csv"; ".dta"; ".zip"; ".gz"; ".tar"; ".7z"; ".rar";
   ".sas7bdat"; ".sas7bcat"; ".sd2"; ".xpt";
   ".rds"; ".rdata"; ".rda";
   ".mat";
   ".pkl"; ".pickle";
   ".parquet"; ".feather";
   ".db"; ".sqlite"; ".sql";
   ".json"; ".jsonl"; ".ndjson";
   ".xml";
   ".hdf5"; ".h5";
   ".nc"; ".nc4";
   ".sav"; ".por";
   ".xlsx"; ".xls"].

Definition DOCUMENT_EXTENSIONS : list string :=
  [".pdf"; ".docx"; ".doc"; ".txt"; ".md"; ".rtf";
   ".tex"; ".bib"; ".log"; ".aux";
   ".odt"; ".ods";
   ".pptx"; ".ppt"].

(** Set membership [ext in S]. *)
Definition mem (x : string) (l : list string) : bool :=
  existsb (String.eqb x) l.

(** Which of the two result lists of [classify_files_recursive] a file
    is appended to. *)
Inductive file_kind := DataFile | DocumentFile.

(** The per-file branch of [recurse_folder]:
    [_, ext = os.path.splitext(item.name.lower())] and the
    [if ext in DATA_FILE_EXTENSIONS / elif ext in DOCUMENT_EXTENSIONS /
    else] cascade (the [else] branch keeps unknown types). *)
Definition classify_name (name : string) : file_kind :=
  let ext := Py.splitext_ext (Py.lower name) in
  if mem ext DATA_FILE_EXTENSIONS then DataFile
  else if mem ext DOCUMENT_EXTENSIONS then DocumentFile
  else DocumentFile.

(** The file-info dicts [{'id', 'name', 'size', 'path'}]. *)
Record file_info := { fi_id : string; fi_name : string; fi_size : Z; fi_path : string }.

(** Items returned by [get_items]; a folder's listing is [None] when
    [get_items] raised [BoxAPIException] (the subtree is skipped). *)
Inductive box_item :=
| BFile (id name : string) (size : Z)
| BFolder (id name : string) (listing : option (list box_item))
| BOther (id name : string).

Definition app2 {A} (x y : list A * list A) : list A * list A :=
  ((fst x ++ fst y)%list, (snd x ++ snd y)%list).

(** [recurse_folder(current_folder, path_prefix)], returning the
    (data_files, document_files) it appends, in order. *)
Fixpoint recurse_item (path_prefix : string) (it : box_item) : list file_info * list file_info :=
  match it with
  | BFile id name size =>
      let fi := {| fi_id := id; fi_name := name; fi_size := size;
                   fi_path := path_prefix ++ "/" ++ name |} in
      match classify_name name with
      | DataFile => ([fi], [])
      | DocumentFile => ([], [fi])
      end
  | BFolder id name listing =>
      let item_path := path_prefix ++ "/" ++ name in
      match listing with
      | None => ([], [])
      | Some items =>
          (fix go (l : list box_item) :=
             match l with
             | [] => ([], [])
             | x :: r => app2 (recurse_item item_path x) (go r)
             end) items
      end
  | BOther _ _ => ([], [])
  end.

Fixpoint recurse_items (path_prefix : string) (items : list box_item) : list file_info * list file_info :=
  match items with
  | [] => ([], [])
  | x :: r => app2 (recurse_item path_prefix x) (recurse_items path_prefix r)
  end.

(** [classify_files_recursive(folder)] on the folder's listing. *)
Definition classify_files_recursive (listing : option (list box_item)) : list file_info * list file_info :=
  match listing with
  | None => ([], [])
  | Some items => recurse_items "" items
  end.

End Classify.

(* ------------------------------------------------------------------ *)
(** ** recover_box_files.py: Jira field cleaning and name matching *)

Module Recover.

(** Jira field values: [None], [float], [int] or [str]. *)
Inductive jira_value :=
| JNone
| JFloat (f : float)
| JInt (z : Z)
| JStr (s : string).

(** Outcome of a Python call that may raise. *)
Inductive py_result (A : Type) := Ok (a : A) | Raise (exn : string).
Arguments Ok {A} a.
Arguments Raise {A} exn.

(** [_clean_jira_numeric_field(value)]. *)
Definition _clean_jira_numeric_field (value : jira_value) : py_result (option string) :=
  match value with
  | JNone => Ok None
  | JFloat f =>
      match PyNum.int_of_float f with
      | Some z => Ok (Some (Py.str_of_Z z))
      | None => Raise "int(float)"
      end
  | JInt z =>
      let value_str := Py.str_of_Z z in
      if Py.endswith value_str ".0"
      then Ok (Some (substring 0 (String.length value_str - 2) value_str))
      else Ok (Some value_str)
  | JStr value_str =>
      if Py.endswith value_str ".0"
      then Ok (Some (substring 0 (String.length value_str - 2) value_str))
      else Ok (Some value_str)
  end.

(** [_matches_folder_name(item_name, expected_name)]. *)
Definition _matches_folder_name (item_name expected_name : string) : bool :=
  let item_lower := Py.lower item_name in
  let expected_lower := Py.lower expected_name in
  if String.eqb item_lower expected_lower then true
  else if Py.contains expected_lower item_lower then true
  else if String.eqb item_lower ("aearep-" ++ expected_lower)
          || Py.contains ("aearep-" ++ expected_lower) item_lower then true
  else if Py.startswith expected_lower "aearep-" then
    let bare_expected := Py.replace_all "aearep-" "" expected_lower in
    if String.eqb item_lower bare_expected || Py.contains bare_expected item_lower
    then true else false
  else false.

End Recover.

(* ------------------------------------------------------------------ *)
(** ** clean_box_folders.py: case-folder discovery *)

Module Discover.

Definition is_digit (c : ascii) : bool :=
  let n := nat_of_ascii c in (48 <=? n)%nat && (n <=? 57)%nat.

(** Split a string into its longest leading run of digits and the rest. *)
Fixpoint span_digits (s : string) : string * string :=
  match s with
  | EmptyString => ("", "")
  | String c r =>
      if is_digit c then let (d, t) := span_digits r in (String c d, t) else ("", s)
  end.

Definition newline : string := String (ascii_of_nat 10) "".

(** [re.compile(r'^aearep-(\d+)$', re.IGNORECASE).match(name)]:
    [Some group(1)] on a match.  [\d+] is greedy and cannot backtrack
    into a match, and [$] matches at the end or before a final newline. *)
Definition case_pattern_match (name : string) : option string :=
  if Py.startswith (Py.lower name) "aearep-" then
    let rest := substring 7 (String.length name - 7) name in
    let (d, tail) := span_digits rest in
    if Py.truthy d && (String.eqb tail "" || String.eqb tail newline)
    then Some d else None
  else None.

(** [int(s)] for a string of decimal digits. *)
Fixpoint digits_value_aux (acc : N) (s : string) : N :=
  match s with
  | EmptyString => acc
  | String c r => digits_value_aux (10 * acc + N.of_nat (nat_of_ascii c - 48))%N r
  end.

Definition int_of_digits (s : string) : N := digits_value_aux 0 s.

(** Entries of [root_folder.get_items(...)]: [(id, name, type)]. *)
Record root_entry := { re_id : string; re_name : string; re_type : string }.

Definition case_folder := (string * string * string)%type.

Definition case_key (x : case_folder) : N := int_of_digits (snd x).

(** [list.sort(key=...)] is stable; insertion in front of the first
    element with a larger or equal key, applied right to left, gives the
    same stable order. *)
Fixpoint insert_by_key (x : case_folder) (l : list case_folder) : list case_folder :=
  match l with
  | [] => [x]
  | y :: l' => if (case_key x <=? case_key y)%N then x :: l else y :: insert_by_key x l'
  end.

Fixpoint sort_by_key (l : list case_folder) : list case_folder :=
  match l with
  | [] => []
  | x :: r => insert_by_key x (sort_by_key r)
  end.

(** The loop over [items] of [find_case_folders]. *)
Fixpoint collect (specific_case : option string) (items : list root_entry) : list case_folder :=
  match items with
  | [] => []
  | item :: rest =>
      if String.eqb (re_type item) "folder" then
        match case_pattern_match (re_name item) with
        | Some case_number =>
            match specific_case with
            | Some sc =>
                if Py.truthy sc && negb (String.eqb case_number sc)
                then collect specific_case rest
                else (re_id item, re_name item, case_number) :: collect specific_case rest
            | None => (re_id item, re_name item, case_number) :: collect specific_case rest
            end
        | None => collect specific_case rest
        end
      else collect specific_case rest
  end.

(** [find_case_folders(specific_case)]: [None] when listing the root
    raised (the method calls [sys.exit(1)]). *)
Definition find_case_folders (listing : option (list root_entry)) (specific_case : option string)
  : option (list case_folder) :=
  match listing with
  | None => None
  | Some items => Some (sort_by_key (collect specific_case items))
  end.

(** Box refuses item names with non-printable ASCII characters. *)
Fixpoint box_valid_name (s : string) : bool :=
  match s with
  | EmptyString => true
  | String c r =>
      let n := nat_of_ascii c in
      (32 <=? n)%nat && negb (n =? 127)%nat && box_valid_name r
  end.

Fixpoint all_digits (s : string) : bool :=
  match s with
  | EmptyString => true
  | String c r => is_digit c && all_digits r
  end.

End Discover.

(* ------------------------------------------------------------------ *)
(** ** clean_box_folders.py: readiness check and confirmation gates *)

Module Readiness.

Definition JIRA_PURGE_QUERY_PATH : string := "/home/vilhuber/bin/aea-scripts/jira_purge_query.py".

(** What [subprocess.run(args, capture_output=True, text=True, timeout=30)]
    gives back: a completed process, [TimeoutExpired], or another
    exception (with its [str]). *)
Inductive proc_outcome :=
| Completed (returncode : Z) (stdout stderr : string)
| TimedOut
| OtherError (msg : string).

(** [sys.exit(1)] or the returned [(is_ready, output)] pair. *)
Inductive check_result :=
| Exit1
| Verdict (is_ready : bool) (output : string).

(** The argument vector built by [check_jira_purge_status]. *)
Definition helper_args (verbose : bool) (case_number : string) : list string :=
  [JIRA_PURGE_QUERY_PATH] ++ (if verbose then [] else ["-q"]) ++ ["aearep-" ++ case_number].

(** [check_jira_purge_status(case_number, verbose)]: [skip_jira] is the
    [--skip-jira-check] flag, [script_exists] is
    [os.path.exists(JIRA_PURGE_QUERY_PATH)] and [run_helper] the
    behaviour of the helper process on an argument vector. *)
Definition check_jira_purge_status (skip_jira script_exists : bool)
    (run_helper : list string -> proc_outcome) (verbose : bool) (case_number : string)
  : check_result :=
  if skip_jira then Verdict true "Skipped (--skip-jira-check)"
  else if negb script_exists then Exit1
  else
    match run_helper (helper_args verbose case_number) with
    | Completed rc out err =>
        let is_ready := Z.eqb rc 0 in
        let output := if Py.truthy out then Py.strip out else Py.strip err in
        Verdict is_ready output
    | TimedOut => Verdict false "Timeout"
    | OtherError e => Verdict false e
    end.

End Readiness.

Module Confirm.

(** Where the run goes at its confirmation step. *)
Inductive gate := Stop | Prompt | Proceed.

(** [BoxCleanup.run]: no case folders returns early; then
    [if not auto_confirm and not self.test_mode and len(case_folders) > 1]. *)
Definition cleanup_gate {A} (auto_confirm test_mode : bool) (case_folders : list A) : gate :=
  match case_folders with
  | [] => Stop
  | _ =>
      if negb auto_confirm && negb test_mode && (1 <? List.length case_folders)%nat
      then Prompt else Proceed
  end.

(** [BoxRecovery.run] for its one case number: list-only mode and an
    empty filtered list return early; then
    [if not auto_confirm and not self.test_mode]. *)
Definition recovery_gate {A} (list_only auto_confirm test_mode : bool) (filtered_items : list A) : gate :=
  if list_only then Stop
  else match filtered_items with
       | [] => Stop
       | _ => if negb auto_confirm && negb test_mode then Prompt else Proceed
       end.

End Confirm.

(* ------------------------------------------------------------------ *)
(** ** clean_box_folders.py: moving and deleting, as state passing *)

Module Cleanup.
Import Classify.

(** [self.stats] (the counters touched while processing cases). *)
Record stats := mkStats {
  folders_checked : Z; folders_ready : Z; folders_moved : Z;
  files_deleted : Z; bytes_deleted : Z; errors : Z }.

(** The Box mutations the script performs; the flag of a trace entry
    says whether the call is issued ([true]) or only logged as
    [[DRY RUN] Would ...] ([false]). *)
Inductive action :=
| ACreate
| AMove (folder_id : string)
| ADelete (file_id : string).

Record st := mkSt { stats_of : stats; trace : list (bool * action) }.

Definition M (A : Type) := st -> A * st.
Definition ret {A} (a : A) : M A := fun s => (a, s).
Definition bind {A B} (m : M A) (k : A -> M B) : M B :=
  fun s => let (a, s') := m s in k a s'.
Notation "x <- m ;; k" := (bind m (fun x => k)) (at level 61, m at next level, right associativity).
Notation "m ;;; k" := (bind m (fun _ => k)) (at level 61, right associativity).

Definition modify_stats (f : stats -> stats) : M unit :=
  fun s => (tt, mkSt (f (stats_of s)) (trace s)).
Definition emit (issued : bool) (a : action) : M unit :=
  fun s => (tt, mkSt (stats_of s) (trace s ++ [(issued, a)])).

Definition add_checked (n : Z) (x : stats) :=
  mkStats (folders_checked x + n) (folders_ready x) (folders_moved x) (files_deleted x) (bytes_deleted x) (errors x).
Definition add_ready (n : Z) (x : stats) :=
  mkStats (folders_checked x) (folders_ready x + n) (folders_moved x) (files_deleted x) (bytes_deleted x) (errors x).
Definition add_moved (n : Z) (x : stats) :=
  mkStats (folders_checked x) (folders_ready x) (folders_moved x + n) (files_deleted x) (bytes_deleted x) (errors x).
Definition add_deleted (n b : Z) (x : stats) :=
  mkStats (folders_checked x) (folders_ready x) (folders_moved x) (files_deleted x + n) (bytes_deleted x + b) (errors x).
Definition add_errors (n : Z) (x : stats) :=
  mkStats (folders_checked x) (folders_ready x) (folders_moved x) (files_deleted x) (bytes_deleted x) (errors x + n).

(** Outcome of [folder.move(completed_folder)]: success, or a
    [BoxAPIException] with its text. *)
Inductive move_outcome := MoveOk | MoveError (msg : string).

(** The remote world a run meets. *)
Record env := mkEnv {
  is_ready : string -> bool;                       (* readiness verdict per case number *)
  listing_of : string -> option (list box_item);   (* get_items of a case folder *)
  move_result : string -> move_outcome;            (* folder.move per folder id *)
  delete_result : string -> option string;         (* file.delete per file id: None = ok *)
  root_listing : option (list Discover.root_entry);(* root get_items for 1Completed *)
  create_result : option string                    (* create_subfolder('1Completed') *)
}.

Section Run.
Variable E : env.
Variable test_mode : bool.

(** [delete_data_files(data_files)]: per-file loop with local counters,
    added to the statistics after the loop. *)
Fixpoint delete_loop (files : list file_info) (count bytes : Z) : M (Z * Z) :=
  match files with
  | [] => ret (count, bytes)
  | f :: rest =>
      if test_mode then
        emit false (ADelete (fi_id f)) ;;;
        delete_loop rest (count + 1) (bytes + fi_size f)
      else
        emit true (ADelete (fi_id f)) ;;;
        match delete_result E (fi_id f) with
        | None => delete_loop rest (count + 1) (bytes + fi_size f)
        | Some _ => modify_stats (add_errors 1) ;;; delete_loop rest count bytes
        end
  end%Z.

Definition delete_data_files (files : list file_info) : M Z :=
  r <- delete_loop files 0 0 ;;
  let (count, bytes) := r in
  modify_stats (add_deleted count bytes) ;;;
  ret count.

(** [get_or_create_completed_folder()]: [None] is [sys.exit(1)]. *)
Definition get_or_create_completed_folder : M (option (option string)) :=
  match root_listing E with
  | None => if test_mode then ret (Some None) else ret None
  | Some items =>
      match find (fun it => String.eqb (Discover.re_type it) "folder"
                            && String.eqb (Discover.re_name it) "1Completed") items with
      | Some it => ret (Some (Some (Discover.re_id it)))
      | None =>
          if test_mode then emit false ACreate ;;; ret (Some None)
          else emit true ACreate ;;;
               match create_result E with
               | Some cid => ret (Some (Some cid))
               | None => ret None
               end
      end
  end.

(** [move_folder_to_completed(folder_id, folder_name, completed_folder_id)]. *)
Definition move_folder_to_completed (folder_id : string) (completed_folder_id : option string) : M bool :=
  if test_mode then emit false (AMove folder_id) ;;; ret true
  else
    match completed_folder_id with
    | Some cid =>
        if Py.truthy cid then
          emit true (AMove folder_id) ;;;
          match move_result E folder_id with
          | MoveOk => ret true
          | MoveError msg =>
              if Py.contains "item_name_in_use" (Py.lower msg) then ret false
              else modify_stats (add_errors 1) ;;; ret false
          end
        else ret false
    | None => ret false
    end.

(** [process_case_folder(folder_id, folder_name, case_number, completed_folder_id)]. *)
Definition process_case_folder (folder_id case_number : string) (completed_folder_id : option string) : M bool :=
  modify_stats (add_checked 1) ;;;
  if negb (is_ready E case_number) then ret false
  else
    modify_stats (add_ready 1) ;;;
    let data_files := fst (classify_files_recursive (listing_of E folder_id)) in
    move_success <- move_folder_to_completed folder_id completed_folder_id ;;
    if negb move_success then ret false
    else
      modify_stats (add_moved 1) ;;;
      match data_files with
      | [] => ret true
      | _ => delete_data_files data_files ;;; ret true
      end.

Fixpoint process_all (completed_folder_id : option string) (cases : list Discover.case_folder) : M unit :=
  match cases with
  | [] => ret tt
  | (fid, _, cn) :: rest =>
      process_case_folder fid cn completed_folder_id ;;; process_all completed_folder_id rest
  end.

(** The part of [run()] after discovery and confirmation: resolve
    [1Completed], then process every case folder.  [false] is an exit.
    The remote failures modelled are the [BoxAPIException]s of the
    move, delete, listing and create calls; the [except Exception]
    around each case in [run()] is not exercised by this model. *)
Definition run_cases (cases : list Discover.case_folder) : M bool :=
  c <- get_or_create_completed_folder ;;
  match c with
  | None => ret false
  | Some cid => process_all cid cases ;;; ret true
  end.

End Run.
End Cleanup.

(* ------------------------------------------------------------------ *)
(** ** recover_box_files.py: filtering trashed items *)

Module Trash.

(** The [trashed_by] value: a dict (its string fields), or another
    object with its truthiness. *)
Inductive trashed_by_val :=
| TBDict (fields : list (string * string))
| TBOther (truthy : bool).

(** An entry of [path_collection['entries']]: a dict with an optional
    ['id'], or something else. *)
Inductive path_entry := PEDict (id : option string) | PEOther.

(** The [path_collection] value: a dict with its [entries] list (a
    missing key reads as [[]]), or a non-dict. *)
Inductive path_collection_val := PCDict (entries : list path_entry) | PCOther.

(** The item dicts built by [get_trashed_items]. *)
Record trashed_item := mkItem {
  ti_id : string;
  ti_name : string;
  ti_trashed_at : option string;
  ti_trashed_by : option trashed_by_val;
  ti_parent_id : option string;
  ti_path_collection : option path_collection_val }.

Fixpoint assoc (k : string) (l : list (string * string)) : option string :=
  match l with
  | [] => None
  | (k', v) :: r => if String.eqb k k' then Some v else assoc k r
  end.

Definition opt_truthy (o : option string) : bool :=
  match o with Some s => Py.truthy s | None => false end.

Definition opt_eqb (o : option string) (s : string) : bool :=
  match o with Some x => String.eqb x s | None => false end.

Section Filter.
(** [datetime.fromisoformat], giving the wall-clock time in seconds, or
    [None] when it raises.  The code gives [self.cutoff_date] the tzinfo
    of the parsed value ([replace], not a conversion), so both sides are
    compared on their wall-clock fields. *)
Variable parse_iso : string -> option Z.
(** [self.cutoff_date] on the same wall-clock scale. *)
Variable cutoff_date : Z.

(** The date block: [true] when the loop goes on with the item. *)
Definition date_check (item : trashed_item) : bool :=
  match ti_trashed_at item with
  | None => true
  | Some trashed_at_str =>
      if Py.truthy trashed_at_str then
        match parse_iso (Py.replace_all "Z" "+00:00" trashed_at_str) with
        | Some trashed_at => negb (trashed_at <? cutoff_date)%Z
        | None => true
        end
      else true
  end.

Definition tb_truthy (tb : trashed_by_val) : bool :=
  match tb with
  | TBDict fields => negb (List.length fields =? 0)%nat
  | TBOther b => b
  end.

(** [trashed_by.get('login', '') if isinstance(trashed_by, dict) else ''] *)
Definition tb_login (tb : trashed_by_val) : string :=
  match tb with
  | TBDict fields => match assoc "login" fields with Some l => l | None => "" end
  | TBOther _ => ""
  end.

(** The user block. *)
Definition user_check (user_filter : string) (item : trashed_item) : bool :=
  if Py.truthy user_filter then
    match ti_trashed_by item with
    | Some tb =>
        if tb_truthy tb then Py.contains (Py.lower user_filter) (Py.lower (tb_login tb))
        else true
    | None => true
    end
  else true.

(** The folder block, checks 1 to 4 and the no-criteria case, in order. *)
Definition folder_check (folder_id folder_name : option string) (item : trashed_item) : bool :=
  let fid := match folder_id with Some f => f | None => "" end in
  let m1 := opt_truthy folder_id && String.eqb (ti_id item) fid in
  let m2 :=
    if negb m1 && opt_truthy folder_id then
      opt_truthy (ti_parent_id item) && opt_eqb (ti_parent_id item) fid
    else m1 in
  let m3 :=
    if negb m2 && opt_truthy folder_id then
      match ti_path_collection item with
      | Some (PCDict entries) =>
          existsb (fun e => match e with PEDict id => opt_eqb id fid | PEOther => false end) entries
      | _ => false
      end
    else m2 in
  let m4 :=
    if negb m3 && opt_truthy folder_name then
      match folder_name with
      | Some fname => Recover._matches_folder_name (ti_name item) fname
      | None => false
      end
    else m3 in
  if negb (opt_truthy folder_id) && negb (opt_truthy folder_name) then true else m4.

(** [filter_trashed_items(items, folder_id, folder_name, user_filter)]. *)
Fixpoint filter_trashed_items (folder_id folder_name : option string) (user_filter : string)
    (items : list trashed_item) : list trashed_item :=
  match items with
  | [] => []
  | item :: rest =>
      let rest' := filter_trashed_items folder_id folder_name user_filter rest in
      if negb (date_check item) then rest'
      else if negb (user_check user_filter item) then rest'
      else if negb (folder_check folder_id folder_name item) then rest'
      else item :: rest'
  end.

End Filter.
End Trash.

(* ------------------------------------------------------------------ *)
(** ** Timestamps of the trash listing *)

(** [datetime.fromisoformat] on the form Box sends in [trashed_at]:
    [YYYY-MM-DDTHH:MM:SS] with an optional [+HH:MM] or [-HH:MM] offset.
    Times are seconds on the proleptic Gregorian calendar from
    1970-01-01 00:00:00; [dt_wall] is the value's own wall-clock reading
    and [dt_offset] its [utcoffset()] in seconds ([None] for a naive
    value).  Out-of-range fields raise, giving [None]; strings of any
    other form are outside this model and also give [None]. *)
Module IsoTime.

Record datetime := mkDT { dt_wall : Z; dt_offset : option Z }.

Definition obind {A B} (m : option A) (f : A -> option B) : option B :=
  match m with Some x => f x | None => None end.

Definition digit (c : ascii) : option Z :=
  let n := Ascii.nat_of_ascii c in
  if (48 <=? n)%nat && (n <=? 57)%nat then Some (Z.of_nat n - 48)%Z else None.

(** [k] decimal digits, read into [acc]. *)
Fixpoint num (k : nat) (acc : Z) (s : string) : option (Z * string) :=
  match k, s with
  | O, _ => Some (acc, s)
  | S k', String c r => obind (digit c) (fun d => num k' (acc * 10 + d)%Z r)
  | S _, EmptyString => None
  end.

Definition expect (c : ascii) (s : string) : option string :=
  match s with String c' r => if Ascii.eqb c c' then Some r else None | EmptyString => None end.

Definition is_leap (y : Z) : bool :=
  ((y mod 4 =? 0) && negb (y mod 100 =? 0) || (y mod 400 =? 0))%Z.

Definition days_in_month (y m : Z) : Z :=
  if (m =? 2)%Z then (if is_leap y then 29 else 28)
  else if existsb (Z.eqb m) [4; 6; 9; 11]%Z then 30 else 31.

(** Days from 1970-01-01 to the given civil date. *)
Definition days_from_civil (y m d : Z) : Z :=
  let y' := if (m <=? 2)%Z then (y - 1)%Z else y in
  let era := (y' / 400)%Z in
  let yoe := (y' - era * 400)%Z in
  let mp := ((m + 9) mod 12)%Z in
  let doy := ((153 * mp + 2) / 5 + d - 1)%Z in
  let doe := (yoe * 365 + yoe / 4 - yoe / 100 + doy)%Z in
  (era * 146097 + doe - 719468)%Z.

Definition civil_seconds (y m d hh mm ss : Z) : Z :=
  (days_from_civil y m d * 86400 + hh * 3600 + mm * 60 + ss)%Z.

Definition offset_part (s : string) : option (option Z) :=
  match s with
  | EmptyString => Some None
  | String sign r =>
      if Ascii.eqb sign "+" || Ascii.eqb sign "-" then
        obind (num 2 0 r) (fun '(oh, r) =>
        obind (expect ":" r) (fun r =>
        obind (num 2 0 r) (fun '(om, r) =>
        match r with
        | EmptyString =>
            if (oh <? 24)%Z && (om <? 60)%Z then
              let o := (oh * 3600 + om * 60)%Z in
              Some (Some (if Ascii.eqb sign "-" then (- o)%Z else o))
            else None
        | _ => None
        end)))
      else None
  end.

Definition fromisoformat (s : string) : option datetime :=
  obind (num 4 0 s) (fun '(y, s) =>
  obind (expect "-" s) (fun s =>
  obind (num 2 0 s) (fun '(mo, s) =>
  obind (expect "-" s) (fun s =>
  obind (num 2 0 s) (fun '(d, s) =>
  obind (expect "T" s) (fun s =>
  obind (num 2 0 s) (fun '(hh, s) =>
  obind (expect ":" s) (fun s =>
  obind (num 2 0 s) (fun '(mi, s) =>
  obind (expect ":" s) (fun s =>
  obind (num 2 0 s) (fun '(ss, s) =>
  obind (offset_part s) (fun off =>
  if (1 <=? y)%Z && (1 <=? mo)%Z && (mo <=? 12)%Z && (1 <=? d)%Z && (d <=? days_in_month y mo)%Z
     && (hh <? 24)%Z && (mi <? 60)%Z && (ss <? 60)%Z
  then Some (mkDT (civil_seconds y mo d hh mi ss) off)
  else None)))))))))))).

(** The moment a value denotes, in UTC seconds (a naive value read as
    UTC, as [utcnow()] gives it). *)
Definition utc_seconds (dt : datetime) : Z :=
  match dt_offset dt with Some o => (dt_wall dt - o)%Z | None => dt_wall dt end.

(** What [filter_trashed_items] compares with the cutoff: the parsed
    value's wall-clock reading.  With an offset the code compares
    [trashed_at] with [cutoff_date.replace(tzinfo=trashed_at.tzinfo)];
    both carry the same [tzinfo], so Python compares the wall-clock
    fields; without one both sides are naive. *)
Definition wall_of_iso (s : string) : option Z := option_map dt_wall (fromisoformat s).

End IsoTime.

(* ------------------------------------------------------------------ *)
(** ** clean_box_folders.py: the whole [run()] *)

Module CleanupRun.
Import Cleanup.

(** [run(specific_case, auto_confirm)]: the helper check, discovery,
    the confirmation prompt (answered with [response]), then
    [run_cases].  [false] is [sys.exit(1)].  The [folders_found] counter
    set by discovery is only printed and is not kept here. *)
Definition run (E : env) (test_mode skip_jira script_exists : bool) (specific_case : option string)
    (auto_confirm : bool) (response : string) : M bool :=
  if negb skip_jira && negb script_exists then ret false
  else
    match Discover.find_case_folders (root_listing E) specific_case with
    | None => ret false
    | Some [] => ret true
    | Some case_folders =>
        if negb auto_confirm && negb test_mode && (1 <? List.length case_folders)%nat
           && negb (Classify.mem (Py.lower response) ["y"; "yes"])
        then ret true
        else run_cases E test_mode case_folders
    end.

End CleanupRun.

(* ------------------------------------------------------------------ *)
(** ** recover_box_files.py: the Jira lookup of the Box folder *)

Module JiraLookup.
Import Recover.

(** Python truthiness of a Jira field value ([0.0] and [-0.0] are
    falsy, [nan] is truthy). *)
Definition jira_truthy (v : jira_value) : bool :=
  match v with
  | JNone => false
  | JFloat f => negb (PrimFloat.eqb f 0%float)
  | JInt z => negb (z =? 0)%Z
  | JStr s => Py.truthy s
  end.

(** [field_map.get(name)] for the dict built by
    [for field in all_fields: field_map[field['name']] = field['id']]:
    a later field with the same name overwrites an earlier one. *)
Definition field_map_get (name : string) (all_fields : list (string * string)) : option string :=
  fold_left (fun acc f => if String.eqb (fst f) name then Some (snd f) else acc) all_fields None.

(** [getattr(issue.fields, field_id, None)]. *)
Definition getattr_field (attrs : list (string * jira_value)) (field_id : string) : jira_value :=
  match find (fun a => String.eqb (fst a) field_id) attrs with
  | Some a => snd a
  | None => JNone
  end.

Definition opt_truthy := Trash.opt_truthy.

(** [get_box_info_from_jira(case_number)]: [issue] is the issue's
    fields ([None] when [jira_client.issue] raises), [all_fields] the
    answer of [jira_client.fields()] ([None] when it raises).  Every
    exception, including one raised while cleaning a value, ends in
    [(None, None)]. *)
Definition get_box_info_from_jira (issue : option (list (string * jira_value)))
    (all_fields : option (list (string * string))) : option string * option string :=
  match issue, all_fields with
  | Some attrs, Some fields =>
      let box_id_field_id := field_map_get "Restricted data Box ID" fields in
      if negb (opt_truthy box_id_field_id) then (None, None)
      else
        let box_folder_id_raw := getattr_field attrs (match box_id_field_id with Some i => i | None => "" end) in
        if negb (jira_truthy box_folder_id_raw) then (None, None)
        else
          match _clean_jira_numeric_field box_folder_id_raw with
          | Raise _ => (None, None)
          | Ok box_folder_id =>
              if negb (opt_truthy box_folder_id) then (None, None)
              else
                let folder_name_field_id := field_map_get "Bitbucket short name" fields in
                if opt_truthy folder_name_field_id then
                  let folder_name_raw :=
                    getattr_field attrs (match folder_name_field_id with Some i => i | None => "" end) in
                  if jira_truthy folder_name_raw then
                    match _clean_jira_numeric_field folder_name_raw with
                    | Raise _ => (None, None)
                    | Ok folder_name => (box_folder_id, folder_name)
                    end
                  else (box_folder_id, None)
                else (box_folder_id, None)
          end
  | _, _ => (None, None)
  end.

End JiraLookup.

(* ------------------------------------------------------------------ *)
(** ** recover_box_files.py: restoring the filtered items *)

Module Restore.
Import Trash.

(** [self.stats] of the recovery script. *)
Record rstats := mkRStats { items_found : Z; items_restored : Z; errors : Z }.

(** The Box mutations of a recovery run; the flag says whether the call
    is issued ([true]) or only logged as [[DRY RUN] Would ...] ([false]). *)
Inductive raction :=
| RCreate
| RRestore (item_id : string) (target : option string).

(** The root folder's items change when [1Completed] is created. *)
Record rst := mkRSt {
  rstats_of : rstats;
  root_items : option (list Discover.root_entry);  (* None: get_items raises *)
  rtrace : list (bool * raction) }.

(** Outcome of [trashed_item.restore(parent_folder=...)]. *)
Inductive restore_outcome :=
| RestoreOk
| RestoreBoxError (msg : string)  (* BoxAPIException with its text *)
| RestoreOtherError.              (* any other exception *)

Record renv := mkREnv {
  folder_listing : string -> option (list Discover.root_entry); (* get_items of a folder, None: raises *)
  create_result : option string;                   (* create_subfolder('1Completed'), None: raises *)
  restore_result : string -> restore_outcome }.    (* restore of a trashed item, by id *)

Definition RM (A : Type) := rst -> A * rst.
Definition ret {A} (a : A) : RM A := fun s => (a, s).
Definition bind {A B} (m : RM A) (k : A -> RM B) : RM B :=
  fun s => let (a, s') := m s in k a s'.
Notation "x <- m ;; k" := (bind m (fun x => k)) (at level 61, m at next level, right associativity).
Notation "m ;;; k" := (bind m (fun _ => k)) (at level 61, right associativity).

Definition log (issued : bool) (a : raction) : RM unit :=
  fun s => (tt, mkRSt (rstats_of s) (root_items s) (rtrace s ++ [(issued, a)])%list).
Definition modify (f : rstats -> rstats) : RM unit :=
  fun s => (tt, mkRSt (f (rstats_of s)) (root_items s) (rtrace s)).
Definition get_root : RM (option (list Discover.root_entry)) := fun s => (root_items s, s).
Definition add_root (e : Discover.root_entry) : RM unit :=
  fun s => (tt, mkRSt (rstats_of s) (option_map (fun l => (l ++ [e])%list) (root_items s)) (rtrace s)).

Definition set_found (n : Z) (x : rstats) := mkRStats n (items_restored x) (errors x).
Definition add_restored (x : rstats) := mkRStats (items_found x) (items_restored x + 1) (errors x).
Definition add_error (x : rstats) := mkRStats (items_found x) (items_restored x) (errors x + 1).

Definition is_completed (it : Discover.root_entry) : bool :=
  String.eqb (Discover.re_type it) "folder" && String.eqb (Discover.re_name it) "1Completed".

Section Run.
Variable R : renv.
Variable test_mode : bool.

(** [get_or_create_completed_folder()]: outer [None] is [sys.exit(1)]. *)
Definition get_or_create_completed_folder : RM (option (option string)) :=
  root <- get_root ;;
  match root with
  | None => if test_mode then ret (Some None) else ret None
  | Some items =>
      match find is_completed items with
      | Some it => ret (Some (Some (Discover.re_id it)))
      | None =>
          if test_mode then log false RCreate ;;; ret (Some None)
          else
            log true RCreate ;;;
            match create_result R with
            | Some cid =>
                add_root {| Discover.re_id := cid; Discover.re_name := "1Completed"; Discover.re_type := "folder" |} ;;;
                ret (Some (Some cid))
            | None => ret None
            end
      end
  end.

(** [find_case_folder_in_completed(folder_name)]: the exit of
    [get_or_create_completed_folder] is not caught; a failing listing of
    [1Completed] gives [None]. *)
Definition find_case_folder_in_completed (folder_name : string) : RM (option (option string)) :=
  c <- get_or_create_completed_folder ;;
  match c with
  | None => ret None
  | Some completed_folder_id =>
      if negb (opt_truthy completed_folder_id) then ret (Some None)
      else
        match folder_listing R (match completed_folder_id with Some i => i | None => "" end) with
        | None => ret (Some None)
        | Some items =>
            match find (fun it => String.eqb (Discover.re_type it) "folder"
                                  && Recover._matches_folder_name (Discover.re_name it) folder_name) items with
            | Some it => ret (Some (Some (Discover.re_id it)))
            | None => ret (Some None)
            end
      end
  end.

(** [restore_item(item, target_folder_id)]; the item's type only picks
    [client.folder] or [client.file] for the same restore call. *)
Definition restore_item (item : trashed_item) (target_folder_id : option string) : RM bool :=
  if test_mode then log false (RRestore (ti_id item) target_folder_id) ;;; ret true
  else if negb (opt_truthy target_folder_id) then ret false
  else
    log true (RRestore (ti_id item) target_folder_id) ;;;
    match restore_result R (ti_id item) with
    | RestoreOk => modify add_restored ;;; ret true
    | RestoreBoxError msg =>
        if Py.contains "item_name_in_use" (Py.lower msg) then ret false
        else modify add_error ;;; ret false
    | RestoreOtherError => modify add_error ;;; ret false
    end.

Fixpoint restore_all (items : list trashed_item) (target_folder_id : option string) : RM unit :=
  match items with
  | [] => ret tt
  | item :: rest => restore_item item target_folder_id ;;; restore_all rest target_folder_id
  end.

(** The part of [run()] after filtering: count, stop in list mode or
    when nothing is left, ask (the answer is [response]), resolve the
    target folder and restore every item.  [false] is [sys.exit(1)]. *)
Definition restore_phase (filtered_items : list trashed_item) (box_folder_name : option string)
    (list_only auto_confirm : bool) (response : string) : RM bool :=
  modify (set_found (Z.of_nat (List.length filtered_items))) ;;;
  if list_only then ret true
  else match filtered_items with
  | [] => ret true
  | _ :: _ =>
      if negb auto_confirm && negb test_mode
         && negb (Classify.mem (Py.lower response) ["y"; "yes"]) then ret true
      else
        t <- (if opt_truthy box_folder_name then
                r <- find_case_folder_in_completed (match box_folder_name with Some n => n | None => "" end) ;;
                match r with
                | None => ret None
                | Some t => if opt_truthy t then ret (Some t) else get_or_create_completed_folder
                end
              else get_or_create_completed_folder) ;;
        match t with
        | None => ret false
        | Some target_folder_id =>
            if negb (opt_truthy target_folder_id) then ret true
            else restore_all filtered_items target_folder_id ;;; ret true
        end
  end.

(** [run(case_number, list_only, auto_confirm)] from the Jira lookup
    on: [issue] and [all_fields] are the Jira answers, [trashed_items]
    what [get_trashed_items] returns, [parse_iso] and [cutoff_date] the
    date handling of [filter_trashed_items]. *)
Definition run (parse_iso : string -> option Z) (cutoff_date : Z)
    (issue : option (list (string * Recover.jira_value))) (all_fields : option (list (string * string)))
    (trashed_items : list trashed_item) (list_only auto_confirm : bool) (response : string) : RM bool :=
  let (box_folder_id, box_folder_name) := JiraLookup.get_box_info_from_jira issue all_fields in
  if negb (opt_truthy box_folder_id) then ret false
  else
    let filtered_items :=
      filter_trashed_items parse_iso cutoff_date box_folder_id box_folder_name "aeadata" trashed_items in
    restore_phase filtered_items box_folder_name list_only auto_confirm response.

End Run.
End Restore.

(* ================================================================== *)
(** * Properties *)

(* ------------------------------------------------------------------ *)
(** ** Classification by extension *)

Lemma mem_In (x : string) (l : list string) : Classify.mem x l = true <-> In x l.
Proof.
  unfold Classify.mem. rewrite existsb_exists. split.
  - intros [y [Hy Heq]]. apply String.eqb_eq in Heq. subst. exact Hy.
  - intros H. exists x. split; [exact H | apply String.eqb_refl].
Qed.

Lemma document_not_data (x : string) :
  In x Classify.DOCUMENT_EXTENSIONS -> Classify.mem x Classify.DATA_FILE_EXTENSIONS = false.
Proof.
  intros H. simpl in H.
  repeat (destruct H as [<- | H]; [reflexivity |]). contradiction.
Qed.

(** C2: a file name's class depends only on the extension that
    [os.path.splitext] finds in its lowercased form; the class is
    [DataFile] exactly for the extensions of [DATA_FILE_EXTENSIONS], and
    every other extension (those of [DOCUMENT_EXTENSIONS] and unknown
    ones alike) gives [DocumentFile]. *)
Theorem classify_name_by_extension (name : string) :
  let ext := Py.splitext_ext (Py.lower name) in
  (forall name', Py.splitext_ext (Py.lower name') = ext ->
                 Classify.classify_name name' = Classify.classify_name name) /\
  (In ext Classify.DATA_FILE_EXTENSIONS -> Classify.classify_name name = Classify.DataFile) /\
  (In ext Classify.DOCUMENT_EXTENSIONS -> Classify.classify_name name = Classify.DocumentFile) /\
  (~ In ext Classify.DATA_FILE_EXTENSIONS -> Classify.classify_name name = Classify.DocumentFile).
Proof.
  intros ext. unfold Classify.classify_name. fold ext.
  split; [| split; [| split]].
  - intros name' H. rewrite H. reflexivity.
  - intros H. apply mem_In in H. rewrite H. reflexivity.
  - intros H. destruct (Classify.mem ext Classify.DATA_FILE_EXTENSIONS) eqn:Hd.
    + exfalso. rewrite (document_not_data ext H) in Hd. discriminate.
    + apply mem_In in H. rewrite H. reflexivity.
  - intros H. destruct (Classify.mem ext Classify.DATA_FILE_EXTENSIONS) eqn:Hd.
    + apply mem_In in Hd. contradiction.
    + destruct (Classify.mem ext Classify.DOCUMENT_EXTENSIONS); reflexivity.
Qed.

(* ------------------------------------------------------------------ *)
(** ** Fuzzy folder-name matching and Jira field cleaning *)

(** C6: ["7712"] and ["aearep-7712"] match in either argument order,
    ["aearep-7712"] and ["aearep-9999"] match in neither, and the short
    alias ["77"] matches the item name ["7712"]. *)
Theorem matches_folder_name_examples :
  Recover._matches_folder_name "7712" "aearep-7712" = true /\
  Recover._matches_folder_name "aearep-7712" "7712" = true /\
  Recover._matches_folder_name "aearep-7712" "aearep-9999" = false /\
  Recover._matches_folder_name "aearep-9999" "aearep-7712" = false /\
  Recover._matches_folder_name "7712" "77" = true.
Proof. vm_compute. repeat split. Qed.

(** C7: the float [1234.0] and the string ["1234.0"] both clean to
    ["1234"], and [None] stays [None]. *)
Theorem clean_jira_numeric_field_examples :
  Recover._clean_jira_numeric_field (Recover.JFloat 1234.0%float) = Recover.Ok (Some "1234") /\
  Recover._clean_jira_numeric_field (Recover.JStr "1234.0") = Recover.Ok (Some "1234") /\
  Recover._clean_jira_numeric_field Recover.JNone = Recover.Ok None.
Proof. vm_compute. repeat split. Qed.

(* ------------------------------------------------------------------ *)
(** ** Readiness check *)

Module ReadinessProps.
Import Readiness.

Definition nl : string := String (Ascii.ascii_of_nat 10) "".

(** The readiness claim read literally: whenever the helper completes,
    the verdict is "exit code zero" and the explanation is its standard
    output, or its standard error when standard output is empty. *)
Definition literal_readiness_claim : Prop :=
  forall skip_jira run_helper verbose case_number rc out err,
    run_helper (helper_args verbose case_number) = Completed rc out err ->
    check_jira_purge_status skip_jira true run_helper verbose case_number =
      Verdict (Z.eqb rc 0) (if Py.truthy out then out else err).

(** C8 (counterexample): a helper that exits 0 and prints ["READY"]
    followed by a newline yields the explanation ["READY"]: the code
    strips the text. *)
Lemma readiness_explanation_is_stripped : ~ literal_readiness_claim.
Proof.
  unfold literal_readiness_claim. intros H.
  specialize (H false (fun _ => Completed 0 ("READY" ++ nl) "") false "4321"
                0%Z ("READY" ++ nl) "" eq_refl).
  vm_compute in H. discriminate H.
Qed.

(** C8 (amended): with [--skip-jira-check] the helper is not run and the
    verdict is ready; a missing helper script exits; otherwise the
    verdict is ready exactly when the helper completes with exit code 0,
    a timeout or launch error gives not ready, and the explanation of a
    completed helper is its stripped standard output when that output is
    non-empty, else its stripped standard error ("Timeout" on timeout). *)
Theorem check_jira_purge_status_spec (run_helper : list string -> proc_outcome)
    (verbose : bool) (case_number : string) (script_exists : bool) :
  check_jira_purge_status true script_exists run_helper verbose case_number
    = Verdict true "Skipped (--skip-jira-check)" /\
  check_jira_purge_status false false run_helper verbose case_number = Exit1 /\
  (forall r o, check_jira_purge_status false true run_helper verbose case_number = Verdict r o ->
     (r = true <-> exists out err, run_helper (helper_args verbose case_number) = Completed 0 out err)) /\
  (forall rc out err, run_helper (helper_args verbose case_number) = Completed rc out err ->
     check_jira_purge_status false true run_helper verbose case_number =
       Verdict (Z.eqb rc 0) (if Py.truthy out then Py.strip out else Py.strip err)) /\
  (run_helper (helper_args verbose case_number) = TimedOut ->
     check_jira_purge_status false true run_helper verbose case_number = Verdict false "Timeout") /\
  (forall e, run_helper (helper_args verbose case_number) = OtherError e ->
     check_jira_purge_status false true run_helper verbose case_number = Verdict false e).
Proof.
  unfold check_jira_purge_status. simpl.
  split; [reflexivity | split; [reflexivity |]].
  split; [| split; [| split]].
  - intros r o. destruct (run_helper (helper_args verbose case_number)) as [rc out err | | e];
      intros Hv; injection Hv as <- _.
    + split.
      * intros Hz. apply Z.eqb_eq in Hz. subst. eauto.
      * intros (out' & err' & Heq). injection Heq as -> _ _. reflexivity.
    + split; [discriminate | intros (? & ? & ?); discriminate].
    + split; [discriminate | intros (? & ? & ?); discriminate].
  - intros rc out err ->. reflexivity.
  - intros ->. reflexivity.
  - intros e ->. reflexivity.
Qed.

End ReadinessProps.

(* ------------------------------------------------------------------ *)
(** ** Confirmation prompts *)

Module ConfirmProps.
Import Confirm.

(** The confirmation claim for the recovery workflow, which always
    targets one case: auto-confirm, dry run or a single case skip the
    prompt, so with its single case it is never shown. *)
Definition literal_recovery_prompt_claim : Prop :=
  forall (A : Type) list_only auto_confirm test_mode (items : list A),
    recovery_gate list_only auto_confirm test_mode items <> Prompt.

(** C9 (counterexample): a live, interactive restore of one found item
    for the single case prompts. *)
Lemma recovery_prompts_for_single_case : ~ literal_recovery_prompt_claim.
Proof.
  unfold literal_recovery_prompt_claim. intros H.
  apply (H unit false false false [tt]). reflexivity.
Qed.

(** C9 (amended): the cleanup run prompts exactly when auto-confirm and
    dry run are both off and more than one case folder was found; the
    recovery run (one case, after a non-empty filtered list outside
    list-only mode) prompts exactly when auto-confirm and dry run are
    both off. *)
Theorem confirmation_gates {A B : Type} (auto_confirm test_mode list_only : bool)
    (case_folders : list A) (items : list B) :
  (cleanup_gate auto_confirm test_mode case_folders = Prompt <->
     auto_confirm = false /\ test_mode = false /\ (1 < List.length case_folders)%nat) /\
  (recovery_gate list_only auto_confirm test_mode items = Prompt <->
     list_only = false /\ items <> [] /\ auto_confirm = false /\ test_mode = false).
Proof.
  split.
  - unfold cleanup_gate. destruct case_folders as [| c cs].
    + simpl. split; [discriminate | intros (_ & _ & Hl); inversion Hl].
    + destruct auto_confirm, test_mode; simpl;
        try (split; [discriminate | intros (? & ? & ?); discriminate]).
      destruct (Nat.ltb 1 (S (List.length cs))) eqn:Hl.
      * apply Nat.ltb_lt in Hl. split; auto.
      * apply Nat.ltb_ge in Hl. split; [discriminate | intros (_ & _ & H'); simpl in H'; lia].
  - unfold recovery_gate. destruct list_only.
    + split; [discriminate | intros (? & _); discriminate].
    + destruct items as [| i is].
      * split; [discriminate | intros (_ & H' & _); contradiction].
      * destruct auto_confirm, test_mode; simpl;
          try (split; [discriminate | intros (_ & _ & ? & ?); discriminate]).
        split; [intros _; repeat split; discriminate | reflexivity].
Qed.

End ConfirmProps.

(* ------------------------------------------------------------------ *)
(** ** Case-folder discovery *)

Module DiscoverProps.
Import Discover.

Lemma lower_app (a b : string) : Py.lower (a ++ b) = Py.lower a ++ Py.lower b.
Proof. induction a as [| c a IH]; simpl; [reflexivity | rewrite IH; reflexivity]. Qed.

Lemma append_empty_r (s : string) : s ++ "" = s.
Proof. induction s as [| c s IH]; simpl; [reflexivity | rewrite IH; reflexivity]. Qed.

Lemma startswith_nil (s : string) : Py.startswith s "" = true.
Proof. destruct s; reflexivity. Qed.

Lemma lower_char_dash (c : ascii) : Py.lower_char c = "-"%char -> c = "-"%char.
Proof. destruct c as [[] [] [] [] [] [] [] []]; vm_compute; congruence. Qed.

Lemma substring_0_length (s : string) : substring 0 (String.length s) s = s.
Proof. induction s as [| c s IH]; simpl; [reflexivity | rewrite IH; reflexivity]. Qed.

Lemma span_digits_split (s d t : string) :
  span_digits s = (d, t) -> s = d ++ t /\ all_digits d = true.
Proof.
  revert d t. induction s as [| c s IH]; intros d t H; simpl in H.
  - injection H as <- <-. split; reflexivity.
  - destruct (is_digit c) eqn:Hc.
    + destruct (span_digits s) as [d' t'] eqn:Hs. injection H as <- <-.
      destruct (IH d' t' eq_refl) as [-> Hd]. simpl. rewrite Hc, Hd. split; reflexivity.
    + injection H as <- <-. split; reflexivity.
Qed.

Lemma span_digits_all (d : string) : all_digits d = true -> span_digits d = (d, "").
Proof.
  induction d as [| c d IH]; simpl; [reflexivity |].
  intros H. apply andb_prop in H as [Hc Hd]. rewrite Hc, (IH Hd). reflexivity.
Qed.

Lemma box_valid_app (a b : string) :
  box_valid_name (a ++ b) = box_valid_name a && box_valid_name b.
Proof.
  induction a as [| c a IH]; simpl; [reflexivity |].
  rewrite IH. apply andb_assoc.
Qed.

Lemma box_valid_tail (c : ascii) (r : string) :
  box_valid_name (String c r) = true -> box_valid_name r = true.
Proof. simpl. intros H. apply andb_prop in H as [_ H]. exact H. Qed.

Lemma lower_aearep (pre : string) :
  Py.lower pre = "aearep" ->
  exists c1 c2 c3 c4 c5 c6, pre = String c1 (String c2 (String c3 (String c4 (String c5 (String c6 ""))))) /\
    Py.lower_char c1 = "a"%char /\ Py.lower_char c2 = "e"%char /\ Py.lower_char c3 = "a"%char /\
    Py.lower_char c4 = "r"%char /\ Py.lower_char c5 = "e"%char /\ Py.lower_char c6 = "p"%char.
Proof.
  intros H.
  destruct pre as [| c1 [| c2 [| c3 [| c4 [| c5 [| c6 [| c7 r]]]]]]]; simpl in H; try discriminate.
  injection H as H1 H2 H3 H4 H5 H6.
  exists c1, c2, c3, c4, c5, c6. repeat split; assumption.
Qed.

(** The regular expression [^aearep-(\d+)$] (ignoring case) on a Box
    item name: a match exactly for the names [pre ++ "-" ++ d] where
    [pre] lowercases to ["aearep"] and [d] is a non-empty digit run,
    with [d] as the group. *)
Lemma case_pattern_match_iff (name d : string) :
  box_valid_name name = true ->
  case_pattern_match name = Some d <->
  exists pre, Py.lower pre = "aearep" /\ name = pre ++ "-" ++ d /\ d <> "" /\ all_digits d = true.
Proof.
  intros Hvalid. split.
  - unfold case_pattern_match.
    destruct name as [| c1 [| c2 [| c3 [| c4 [| c5 [| c6 [| c7 r]]]]]]];
      intros Hm; cbn [Py.lower Py.startswith andb] in Hm; rewrite ?andb_false_r in Hm; try discriminate Hm.
    destruct (Ascii.eqb "a" (Py.lower_char c1)) eqn:E1; cbn [andb] in Hm; try discriminate Hm.
    destruct (Ascii.eqb "e" (Py.lower_char c2)) eqn:E2; cbn [andb] in Hm; try discriminate Hm.
    destruct (Ascii.eqb "a" (Py.lower_char c3)) eqn:E3; cbn [andb] in Hm; try discriminate Hm.
    destruct (Ascii.eqb "r" (Py.lower_char c4)) eqn:E4; cbn [andb] in Hm; try discriminate Hm.
    destruct (Ascii.eqb "e" (Py.lower_char c5)) eqn:E5; cbn [andb] in Hm; try discriminate Hm.
    destruct (Ascii.eqb "p" (Py.lower_char c6)) eqn:E6; cbn [andb] in Hm; try discriminate Hm.
    destruct (Ascii.eqb "-" (Py.lower_char c7)) eqn:E7; cbn [andb] in Hm; try discriminate Hm.
    apply Ascii.eqb_eq in E1, E2, E3, E4, E5, E6, E7. symmetry in E1, E2, E3, E4, E5, E6, E7.
    apply lower_char_dash in E7. subst c7.
    rewrite startswith_nil in Hm. cbn [String.length substring Nat.sub] in Hm. rewrite Nat.sub_0_r, substring_0_length in Hm.
    destruct (span_digits r) as [d' t] eqn:Hs.
    destruct (span_digits_split r d' t Hs) as [Hr Hd'].
    destruct (Py.truthy d') eqn:Ht; simpl in Hm; [| discriminate Hm].
    destruct (String.eqb t "") eqn:Ht0; simpl in Hm.
    + injection Hm as <-.
      apply String.eqb_eq in Ht0. subst t r.
      exists (String c1 (String c2 (String c3 (String c4 (String c5 (String c6 "")))))).
      simpl. rewrite E1, E2, E3, E4, E5, E6, append_empty_r.
      repeat split; try reflexivity; [| exact Hd'].
      intros ->. discriminate.
    + destruct (String.eqb t newline) eqn:Htn; simpl in Hm; [| discriminate Hm].
      apply String.eqb_eq in Htn. subst t r. exfalso.
      do 7 apply box_valid_tail in Hvalid. rewrite box_valid_app in Hvalid.
      apply andb_prop in Hvalid as [_ Hvalid]. discriminate Hvalid.
  - intros (pre & Hpre & -> & Hne & Hd).
    destruct (lower_aearep pre Hpre) as (c1 & c2 & c3 & c4 & c5 & c6 & -> & E1 & E2 & E3 & E4 & E5 & E6).
    unfold case_pattern_match. simpl.
    rewrite E1, E2, E3, E4, E5, E6. simpl.
    rewrite Nat.sub_0_r, substring_0_length, (span_digits_all d Hd).
    destruct d as [| c d']; [contradiction | reflexivity].
Qed.

Definition key_le (x y : case_folder) : Prop := (case_key x <= case_key y)%N.

Lemma insert_by_key_perm (x : case_folder) (l : list case_folder) :
  Permutation (insert_by_key x l) (x :: l).
Proof.
  induction l as [| y l IH]; simpl; [reflexivity |].
  destruct (case_key x <=? case_key y)%N; [reflexivity |].
  rewrite IH. apply perm_swap.
Qed.

Lemma sort_by_key_perm (l : list case_folder) : Permutation (sort_by_key l) l.
Proof.
  induction l as [| x l IH]; simpl; [reflexivity |].
  rewrite insert_by_key_perm, IH. reflexivity.
Qed.

Lemma insert_by_key_hdrel (a x : case_folder) (l : list case_folder) :
  HdRel key_le a l -> key_le a x -> HdRel key_le a (insert_by_key x l).
Proof.
  intros Hh Hax. destruct l as [| y l]; simpl.
  - constructor. exact Hax.
  - destruct (case_key x <=? case_key y)%N.
    + constructor. exact Hax.
    + inversion Hh; subst. constructor. assumption.
Qed.

Lemma insert_by_key_sorted (x : case_folder) (l : list case_folder) :
  Sorted key_le l -> Sorted key_le (insert_by_key x l).
Proof.
  induction l as [| y l IH]; intros Hs; simpl.
  - repeat constructor.
  - inversion Hs as [| y' l' Hl Hh]; subst.
    destruct (case_key x <=? case_key y)%N eqn:Hxy.
    + constructor; [exact Hs |]. constructor. unfold key_le. apply N.leb_le. exact Hxy.
    + constructor; [apply IH; exact Hl |].
      apply insert_by_key_hdrel; [exact Hh |].
      unfold key_le. apply N.leb_gt in Hxy. apply N.lt_le_incl. exact Hxy.
Qed.

Lemma sort_by_key_sorted (l : list case_folder) : Sorted key_le (sort_by_key l).
Proof.
  induction l as [| x l IH]; simpl; [constructor |].
  apply insert_by_key_sorted. exact IH.
Qed.

Lemma collect_In (sc : option string) (items : list root_entry) (c : case_folder) :
  In c (collect sc items) <->
  exists e cn, In e items /\ re_type e = "folder" /\ case_pattern_match (re_name e) = Some cn /\
    (sc = None \/ sc = Some "" \/ sc = Some cn) /\ c = (re_id e, re_name e, cn).
Proof.
  induction items as [| e items IH]; simpl.
  - split; [contradiction | intros (? & ? & [] & _)].
  - assert (Hrest : In c (collect sc items) ->
              exists e' cn, (e = e' \/ In e' items) /\ re_type e' = "folder" /\
                case_pattern_match (re_name e') = Some cn /\
                (sc = None \/ sc = Some "" \/ sc = Some cn) /\ c = (re_id e', re_name e', cn)).
    { intros H. apply IH in H as (e' & cn & H1 & H2). exists e', cn. auto. }
    destruct (String.eqb (re_type e) "folder") eqn:Ht.
    + apply String.eqb_eq in Ht.
      destruct (case_pattern_match (re_name e)) as [cn |] eqn:Hm.
      *
        destruct sc as [s |].
        -- destruct (Py.truthy s && negb (String.eqb cn s)) eqn:Hf.
           ++ apply andb_prop in Hf as [Hs Hne].
              split; [exact Hrest |].
              intros (e' & cn' & [<- | Hin] & Ht' & Hm' & Hsc & ->).
              ** exfalso. rewrite Hm in Hm'. injection Hm' as <-.
                 unfold Py.truthy in Hs. apply negb_true_iff in Hs, Hne.
                 destruct Hsc as [Hsc | [Hsc | Hsc]]; injection Hsc as Hsc || discriminate Hsc;
                   subst; [rewrite String.eqb_refl in Hs | rewrite String.eqb_refl in Hne]; discriminate.
              ** apply IH. exists e', cn'. auto.
           ++ simpl. split.
              ** intros [<- | H]; [| exact (Hrest H)].
                 exists e, cn. repeat split; auto.
                 destruct (Py.truthy s) eqn:Hs; simpl in Hf.
                 --- apply negb_false_iff, String.eqb_eq in Hf. subst. auto.
                 --- unfold Py.truthy in Hs. apply negb_false_iff, String.eqb_eq in Hs. subst. auto.
              ** intros (e' & cn' & [<- | Hin] & Ht' & Hm' & Hsc & ->).
                 --- left. rewrite Hm in Hm'. injection Hm' as <-. reflexivity.
                 --- right. apply IH. exists e', cn'. auto.
        -- simpl. split.
           ++ intros [<- | H]; [| exact (Hrest H)]. exists e, cn. repeat split; auto.
           ++ intros (e' & cn' & [<- | Hin] & Ht' & Hm' & Hsc & ->).
              ** left. rewrite Hm in Hm'. injection Hm' as <-. reflexivity.
              ** right. apply IH. exists e', cn'. auto.
      * split; [exact Hrest |].
        intros (e' & cn' & [<- | Hin] & Ht' & Hm' & Hsc & ->).
        -- rewrite Hm in Hm'. discriminate.
        -- apply IH. exists e', cn'. auto.
    + split; [exact Hrest |].
      intros (e' & cn' & [<- | Hin] & Ht' & Hm' & Hsc & ->).
      * rewrite Ht' in Ht. discriminate.
      * apply IH. exists e', cn'. auto.
Qed.

(** C4: on a valid Box item name the matcher accepts exactly the names
    [<prefix>-<digits>] with [<prefix>] equal to ["aearep"] up to case,
    extracting the digit run; ["aearep-12a"], ["otheraearep-12"] and
    ["other-12"] are rejected; and [find_case_folders] returns, sorted
    ascending by the numeric value of the case number, exactly the
    matching folder entries (restricted to [specific_case] when one is
    given). *)
Theorem find_case_folders_spec (name d : string) (items : list root_entry)
    (specific_case : option string) (Hvalid : box_valid_name name = true) :
  (case_pattern_match name = Some d <->
   exists pre, Py.lower pre = "aearep" /\ name = pre ++ "-" ++ d /\ d <> "" /\ all_digits d = true) /\
  case_pattern_match "aearep-12a" = None /\
  case_pattern_match "otheraearep-12" = None /\
  case_pattern_match "other-12" = None /\
  exists res, find_case_folders (Some items) specific_case = Some res /\
    Sorted (fun x y => (int_of_digits (snd x) <= int_of_digits (snd y))%N) res /\
    Permutation res (collect specific_case items) /\
    (forall c, In c res <->
       exists e cn, In e items /\ re_type e = "folder" /\ case_pattern_match (re_name e) = Some cn /\
         (specific_case = None \/ specific_case = Some "" \/ specific_case = Some cn) /\
         c = (re_id e, re_name e, cn)).
Proof.
  split; [exact (case_pattern_match_iff name d Hvalid) |].
  split; [reflexivity |]. split; [reflexivity |]. split; [reflexivity |].
  exists (sort_by_key (collect specific_case items)).
  split; [reflexivity |].
  split; [exact (sort_by_key_sorted _) |].
  split; [exact (sort_by_key_perm _) |].
  intros c. split.
  - intros H. apply collect_In. eapply Permutation_in; [exact (sort_by_key_perm _) | exact H].
  - intros H. apply collect_In in H. eapply Permutation_in; [symmetry; exact (sort_by_key_perm _) | exact H].
Qed.

Lemma find_case_folders_spec_witness :
  box_valid_name "AEAREP-0042" = true /\
  case_pattern_match "AEAREP-0042" = Some "0042" /\
  find_case_folders (Some [{| re_id := "9"; re_name := "aearep-10"; re_type := "folder" |};
                           {| re_id := "8"; re_name := "AEAREP-0042"; re_type := "folder" |}]) None
    = Some [("9", "aearep-10", "10"); ("8", "AEAREP-0042", "0042")].
Proof.
  split; [reflexivity |]. split; [| reflexivity].
  apply (find_case_folders_spec "AEAREP-0042" "0042" [] None eq_refl).
  exists "AEAREP". repeat split; [discriminate].
Defined.

End DiscoverProps.

(* ------------------------------------------------------------------ *)
(** ** Move before delete; dry run against live run *)

Module CleanupProps.
Import Classify Cleanup.
Local Open Scope list_scope.

Section Props.
Variable E : env.

(** Trace entries that are data-file deletions. *)
Definition is_delete (e : bool * action) : Prop := exists f, snd e = ADelete f.

Lemma delete_loop_trace (test : bool) (files : list file_info) (c b : Z) (s : st) :
  exists new, trace (snd (delete_loop E test files c b s)) = trace s ++ new /\
              forall e, In e new -> is_delete e.
Proof.
  revert c b s. induction files as [| f files IH]; intros c b s; simpl.
  - exists []. rewrite app_nil_r. split; [reflexivity | contradiction].
  - destruct test; unfold bind, emit, modify_stats; simpl.
    + destruct (IH (c + 1)%Z (b + fi_size f)%Z (mkSt (stats_of s) (trace s ++ [(false, ADelete (fi_id f))])))
        as (new & Ht & Hd).
      exists ((false, ADelete (fi_id f)) :: new). rewrite Ht; simpl; rewrite <- app_assoc. split; [reflexivity |].
      intros e [<- | Hin]; [eexists; reflexivity | auto].
    + destruct (delete_result E (fi_id f)); cbn [stats_of trace].
      * destruct (IH c b (mkSt (add_errors 1 (stats_of s)) (trace s ++ [(true, ADelete (fi_id f))])))
          as (new & Ht & Hd).
        exists ((true, ADelete (fi_id f)) :: new). rewrite Ht; simpl; rewrite <- app_assoc. split; [reflexivity |].
        intros e [<- | Hin]; [eexists; reflexivity | auto].
      * destruct (IH (c + 1)%Z (b + fi_size f)%Z (mkSt (stats_of s) (trace s ++ [(true, ADelete (fi_id f))])))
          as (new & Ht & Hd).
        exists ((true, ADelete (fi_id f)) :: new). rewrite Ht; simpl; rewrite <- app_assoc. split; [reflexivity |].
        intros e [<- | Hin]; [eexists; reflexivity | auto].
Qed.

Lemma delete_data_files_trace (test : bool) (files : list file_info) (s : st) :
  exists new, trace (snd (delete_data_files E test files s)) = trace s ++ new /\
              forall e, In e new -> is_delete e.
Proof.
  unfold delete_data_files, bind.
  destruct (delete_loop_trace test files 0 0 s) as (new & Ht & Hd).
  destruct (delete_loop E test files 0 0 s) as [[c b] s1] eqn:Hl. simpl in Ht.
  exists new. simpl. split; [exact Ht | exact Hd].
Qed.

(** What [move_folder_to_completed] does to the state: it appends at
    most the move itself to the trace, keeps the deletion counters, and
    its answer does not depend on the state. *)
Lemma move_folder_to_completed_effect (test : bool) (fid : string) (cid : option string) (s : st) :
  let '(ok, s') := move_folder_to_completed E test fid cid s in
  (trace s' = trace s \/ exists b, trace s' = trace s ++ [(b, AMove fid)]) /\
  (ok = true -> exists b, trace s' = trace s ++ [(b, AMove fid)]) /\
  files_deleted (stats_of s') = files_deleted (stats_of s) /\
  bytes_deleted (stats_of s') = bytes_deleted (stats_of s) /\
  forall s2, fst (move_folder_to_completed E test fid cid s2) = ok.
Proof.
  unfold move_folder_to_completed, bind, emit, ret, modify_stats.
  destruct test; simpl.
  - repeat split; eauto. 
  - destruct cid as [c |]; simpl; [| repeat split; auto; discriminate].
    destruct (Py.truthy c); simpl; [| repeat split; auto; discriminate].
    destruct (move_result E fid) as [| msg]; simpl; [repeat split; eauto |].
    destruct (Py.contains "item_name_in_use" (Py.lower msg)); simpl;
      repeat split; eauto; discriminate.
Qed.

(** C1: within [process_case_folder], every deletion call (issued or
    dry-run) comes after the move of the case folder, and when the move
    reports failure the case makes no deletion call at all and the
    deleted-file and deleted-byte counters do not change. *)
Theorem process_case_folder_move_first (test : bool) (fid cn : string) (cid : option string) (s : st) :
  let '(ok, s') := process_case_folder E test fid cn cid s in
  exists new, trace s' = trace s ++ new /\
    (forall pre e post, new = pre ++ e :: post -> is_delete e -> exists b, In (b, AMove fid) pre) /\
    (fst (move_folder_to_completed E test fid cid s) = false ->
       ok = false /\ (forall e, In e new -> ~ is_delete e) /\
       files_deleted (stats_of s') = files_deleted (stats_of s) /\
       bytes_deleted (stats_of s') = bytes_deleted (stats_of s)).
Proof.
  unfold process_case_folder, bind, modify_stats, ret. simpl.
  destruct (is_ready E cn); simpl.
  2:{ exists []. rewrite app_nil_r. split; [reflexivity |]. split.
      - intros pre e post H. destruct pre; discriminate.
      - intros _. repeat split; auto. }
  set (s1 := mkSt (add_ready 1 (add_checked 1 (stats_of s))) (trace s)).
  pose proof (move_folder_to_completed_effect test fid cid s1) as Hm.
  assert (Hind : forall s2, fst (move_folder_to_completed E test fid cid s2)
                          = fst (move_folder_to_completed E test fid cid s1)).
  { intros s2. destruct (move_folder_to_completed E test fid cid s1) as [ok1 s1'].
    destruct Hm as (_ & _ & _ & _ & Hs). apply Hs. }
  rewrite (Hind s).
  destruct (move_folder_to_completed E test fid cid s1) as [ok1 s1'] eqn:Hmv.
  destruct Hm as (Htr & Hok & Hfd & Hbd & _). simpl.
  destruct ok1; simpl.
  - destruct (Hok eq_refl) as [b Hb].
    set (s2 := mkSt (add_moved 1 (stats_of s1')) (trace s1')).
    destruct (fst (classify_files_recursive (listing_of E fid))) as [| f fs] eqn:Hdf; simpl.
    + exists [(b, AMove fid)]. rewrite Hb. split; [reflexivity |]. split.
      * intros pre e post H Hdel. destruct pre as [| x pre].
        -- injection H as <- _. destruct Hdel as [f Hf]. discriminate.
        -- destruct pre; discriminate.
      * intros H. discriminate.
    + destruct (delete_data_files_trace test (f :: fs) s2) as (new & Ht & Hd).
      destruct (delete_data_files E test (f :: fs) s2) as [n s3]. simpl in Ht |- *.
      exists ((b, AMove fid) :: new). rewrite Ht. simpl. rewrite Hb, <- app_assoc.
      split; [reflexivity |]. split.
      * intros pre e post H Hdel. destruct pre as [| x pre].
        -- injection H as <- _. destruct Hdel as [g Hg]. discriminate.
        -- injection H as <- _. exists b. left. reflexivity.
      * intros H. discriminate.
  - destruct Htr as [Ht | [b Ht]].
    + exists []. rewrite Ht, app_nil_r. split; [reflexivity |]. split.
      * intros pre e post H. destruct pre; discriminate.
      * intros _. repeat split; auto.
    + exists [(b, AMove fid)]. rewrite Ht. split; [reflexivity |]. split.
      * intros pre e post H Hdel. destruct pre as [| x pre].
        -- injection H as <- _. destruct Hdel as [f Hf]. discriminate.
        -- destruct pre; discriminate.
      * intros _. split; [reflexivity |]. split.
        -- intros e [<- | []] [f Hf]. discriminate.
        -- split; assumption.
Qed.

(** Dry-run state [sd] and live state [sl] agree: same counters, same
    actions in the same order, the dry ones all logged only and the live
    ones all issued. *)
Definition twin (sd sl : st) : Prop :=
  stats_of sd = stats_of sl /\ map snd (trace sd) = map snd (trace sl) /\
  Forall (fun e => fst e = false) (trace sd) /\ Forall (fun e => fst e = true) (trace sl).

Lemma twin_emit (a : action) (sd sl : st) :
  twin sd sl -> twin (mkSt (stats_of sd) (trace sd ++ [(false, a)]))
                     (mkSt (stats_of sl) (trace sl ++ [(true, a)])).
Proof.
  intros (Hs & Hm & Hd & Hl). unfold twin; simpl.
  rewrite !map_app, Hm. repeat split; try assumption; try reflexivity;
    apply Forall_app; split; auto.
Qed.

Lemma twin_stats (f : stats -> stats) (sd sl : st) :
  twin sd sl -> twin (mkSt (f (stats_of sd)) (trace sd)) (mkSt (f (stats_of sl)) (trace sl)).
Proof. intros (Hs & Hm & Hd & Hl). unfold twin; simpl. rewrite Hs. auto. Qed.

Ltac twin_solve H :=
  let Hs := fresh "Hs" in let Hm := fresh "Hm" in
  let Hd := fresh "Hd" in let Hl := fresh "Hl" in
  destruct H as (Hs & Hm & Hd & Hl); unfold twin; simpl;
  rewrite ?map_app, ?Hs, ?Hm;
  repeat split; try reflexivity;
  try (apply Forall_app; split; [assumption | repeat constructor]); try assumption.

(** Every remote call of a live run succeeds. *)
Definition no_failures : Prop :=
  (exists items, root_listing E = Some items /\ Forall (fun it => Py.truthy (Discover.re_id it) = true) items) /\
  (exists cid, create_result E = Some cid /\ Py.truthy cid = true) /\
  (forall fid, move_result E fid = MoveOk) /\
  (forall file_id, delete_result E file_id = None).

Section NoFailures.
Hypothesis Hok : no_failures.

Lemma delete_loop_twin (files : list file_info) (c b : Z) (sd sl : st) :
  twin sd sl ->
  fst (delete_loop E true files c b sd) = fst (delete_loop E false files c b sl) /\
  twin (snd (delete_loop E true files c b sd)) (snd (delete_loop E false files c b sl)).
Proof.
  destruct Hok as (_ & _ & _ & Hdel).
  revert c b sd sl. induction files as [| f files IH]; intros c b sd sl Ht; simpl.
  - split; [reflexivity | exact Ht].
  - unfold bind, emit. simpl. rewrite Hdel.
    apply IH. apply twin_emit. exact Ht.
Qed.

Lemma delete_data_files_twin (files : list file_info) (sd sl : st) :
  twin sd sl ->
  fst (delete_data_files E true files sd) = fst (delete_data_files E false files sl) /\
  twin (snd (delete_data_files E true files sd)) (snd (delete_data_files E false files sl)).
Proof.
  intros Ht. unfold delete_data_files, bind.
  destruct (delete_loop_twin files 0 0 sd sl Ht) as [Hr Ht'].
  destruct (delete_loop E true files 0 0 sd) as [[cd bd] sd'].
  destruct (delete_loop E false files 0 0 sl) as [[cl bl] sl']. simpl in Hr, Ht' |- *.
  injection Hr as <- <-. split; [reflexivity |]. apply twin_stats. exact Ht'.
Qed.

Lemma process_case_folder_twin (fid cn : string) (cd : option string) (cl : string) (sd sl : st) :
  Py.truthy cl = true -> twin sd sl ->
  fst (process_case_folder E true fid cn cd sd) = fst (process_case_folder E false fid cn (Some cl) sl) /\
  twin (snd (process_case_folder E true fid cn cd sd)) (snd (process_case_folder E false fid cn (Some cl) sl)).
Proof.
  intros Hcl Ht. destruct Hok as (_ & _ & Hmove & _).
  unfold process_case_folder, move_folder_to_completed, bind, modify_stats, emit, ret. simpl.
  rewrite Hcl, Hmove. simpl.
  destruct (is_ready E cn); simpl.
  2:{ split; [reflexivity |]. twin_solve Ht. }
  destruct (fst (classify_files_recursive (listing_of E fid))) as [| f fs]; simpl.
  - split; [reflexivity |]. twin_solve Ht.
  - match goal with
    | |- context [delete_data_files E true ?fl ?s1] =>
        match goal with
        | |- context [delete_data_files E false _ ?s2] =>
            assert (Hts : twin s1 s2)
        end
    end.
    { twin_solve Ht. }
    destruct (delete_data_files_twin (f :: fs) _ _ Hts) as [_ Ht'].
    destruct (delete_data_files E true (f :: fs) _) as [nd sd'].
    destruct (delete_data_files E false (f :: fs) _) as [nl sl'].
    split; [reflexivity | exact Ht'].
Qed.

Lemma process_all_twin (cases : list Discover.case_folder) (cd : option string) (cl : string) (sd sl : st) :
  Py.truthy cl = true -> twin sd sl ->
  twin (snd (process_all E true cd cases sd)) (snd (process_all E false (Some cl) cases sl)).
Proof.
  intros Hcl. revert sd sl. induction cases as [| [[fid nm] cn] cases IH]; intros sd sl Ht; simpl.
  - exact Ht.
  - unfold bind.
    destruct (process_case_folder_twin fid cn cd cl sd sl Hcl Ht) as [_ Ht'].
    destruct (process_case_folder E true fid cn cd sd) as [rd sd'].
    destruct (process_case_folder E false fid cn (Some cl) sl) as [rl sl'].
    apply IH. exact Ht'.
Qed.

End NoFailures.
(** C5: when no remote call fails, the dry run ([test_mode = true]) and
    the live run of the same case folders from the same counters both
    complete, end with identical counters (folders checked, ready and
    moved, files and bytes deleted, errors), and go through the same
    Box actions in the same order; the only difference is that the dry
    run issues none of them and the live run issues all of them. *)
Theorem dry_run_matches_live_run (cases : list Discover.case_folder) (s0 : stats)
    (Hok : no_failures) :
  let (rd, sd) := run_cases E true cases (mkSt s0 []) in
  let (rl, sl) := run_cases E false cases (mkSt s0 []) in
  rd = true /\ rl = true /\ stats_of sd = stats_of sl /\
  map snd (trace sd) = map snd (trace sl) /\
  Forall (fun e => fst e = false) (trace sd) /\ Forall (fun e => fst e = true) (trace sl).
Proof.
  assert (H0 : twin (mkSt s0 []) (mkSt s0 [])) by (repeat split; constructor).
  pose proof Hok as ((items & Hroot & Hids) & (cid & Hcr & Hcid) & _ & _).
  unfold run_cases, get_or_create_completed_folder, bind, emit, ret.
  rewrite Hroot.
  destruct (find _ items) as [it |] eqn:Hf.
  - apply find_some in Hf as [Hin _].
    assert (Htr : Py.truthy (Discover.re_id it) = true) by (rewrite Forall_forall in Hids; auto).
    pose proof (process_all_twin Hok cases (Some (Discover.re_id it)) (Discover.re_id it) _ _ Htr H0) as Ht.
    destruct (process_all E true _ cases _) as [[] sd].
    destruct (process_all E false _ cases _) as [[] sl].
    simpl in Ht |- *. destruct Ht as (? & ? & ? & ?). repeat split; auto.
  - rewrite Hcr.
    assert (H1 : twin (mkSt s0 [(false, ACreate)]) (mkSt s0 [(true, ACreate)]))
      by (repeat split; repeat constructor).
    pose proof (process_all_twin Hok cases None cid _ _ Hcid H1) as Ht.
    simpl.
    destruct (process_all E true None cases _) as [[] sd].
    destruct (process_all E false (Some cid) cases _) as [[] sl].
    simpl in Ht |- *. destruct Ht as (? & ? & ? & ?). repeat split; auto.
Qed.

End Props.
(** An environment in which every remote call succeeds. *)
Definition env_ok : env :=
  mkEnv (fun _ => true)
        (fun _ => Some [BFile "f1" "data.csv" 100; BFile "f2" "paper.pdf" 5])
        (fun _ => MoveOk) (fun _ => None) (Some []) (Some "77").

Lemma dry_run_matches_live_run_witness :
  no_failures env_ok /\
  (let (rd, sd) := run_cases env_ok true [("555", "aearep-4321", "4321")] (mkSt (mkStats 0 0 0 0 0 0) []) in
   let (rl, sl) := run_cases env_ok false [("555", "aearep-4321", "4321")] (mkSt (mkStats 0 0 0 0 0 0) []) in
   rd = true /\ rl = true /\ stats_of sd = stats_of sl /\
   map snd (trace sd) = map snd (trace sl) /\
   Forall (fun e => fst e = false) (trace sd) /\ Forall (fun e => fst e = true) (trace sl)).
Proof.
  assert (Hok : no_failures env_ok).
  { split; [exists []; split; [reflexivity | constructor] |].
    split; [exists "77"; split; reflexivity |].
    split; intros; reflexivity. }
  split; [exact Hok |].
  exact (dry_run_matches_live_run env_ok [("555", "aearep-4321", "4321")] (mkStats 0 0 0 0 0 0) Hok).
Defined.

End CleanupProps.

(* ------------------------------------------------------------------ *)
(** ** Filtering trashed items *)

Module TrashProps.
Import Trash.

Section Props.
Variable parse_iso : string -> option Z.
Variable cutoff_date : Z.

Lemma filter_trashed_items_In (folder_id folder_name : option string) (user_filter : string)
    (items : list trashed_item) (item : trashed_item) :
  In item (filter_trashed_items parse_iso cutoff_date folder_id folder_name user_filter items) <->
  In item items /\ date_check parse_iso cutoff_date item = true /\
  user_check user_filter item = true /\ folder_check folder_id folder_name item = true.
Proof.
  induction items as [| x items IH]; simpl; [tauto |].
  destruct (date_check parse_iso cutoff_date x) eqn:Hd; simpl;
  [destruct (user_check user_filter x) eqn:Hu; simpl;
   [destruct (folder_check folder_id folder_name x) eqn:Hf; simpl |] |];
  rewrite IH; split;
  try (intros [<- | H]; [repeat split; auto | tauto]);
  try tauto;
  intros ([<- | Hin] & H1 & H2 & H3); try congruence; tauto.
Qed.

(** The four association rules of the folder check, read as a
    relation: the item is the target folder, its parent is the target
    folder, the target folder is on its recorded path, or its name
    fuzzily matches the given folder name. *)
Definition associated (folder_id folder_name : option string) (item : trashed_item) : Prop :=
  (exists f, folder_id = Some f /\ f <> "" /\
     (ti_id item = f \/ ti_parent_id item = Some f \/
      exists entries, ti_path_collection item = Some (PCDict entries) /\ In (PEDict (Some f)) entries)) \/
  (exists n, folder_name = Some n /\ n <> "" /\ Recover._matches_folder_name (ti_name item) n = true).

Lemma truthy_ne (s : string) : Py.truthy s = true -> s <> "".
Proof. unfold Py.truthy. intros H ->. discriminate. Qed.

Lemma folder_check_associated (folder_id folder_name : option string) (item : trashed_item) :
  (opt_truthy folder_id = true \/ opt_truthy folder_name = true) ->
  folder_check folder_id folder_name item = true -> associated folder_id folder_name item.
Proof.
  intros Hgiven. unfold folder_check.
  assert (Hcrit : negb (opt_truthy folder_id) && negb (opt_truthy folder_name) = false).
  { destruct Hgiven as [H | H]; rewrite H; [reflexivity | apply andb_false_r]. }
  rewrite Hcrit.
  destruct folder_id as [f |] eqn:Hfid; simpl.
  - destruct (Py.truthy f) eqn:Hf; simpl.
    + destruct (String.eqb (ti_id item) f) eqn:H1; simpl.
      * intros _. left. exists f. repeat split; [apply truthy_ne; exact Hf |].
        left. apply String.eqb_eq. exact H1.
      * destruct (opt_truthy (ti_parent_id item) && opt_eqb (ti_parent_id item) f) eqn:H2; simpl.
        -- intros _. left. exists f. repeat split; [apply truthy_ne; exact Hf |].
           right; left. apply andb_prop in H2 as [_ H2].
           destruct (ti_parent_id item) as [p |]; [| discriminate].
           apply String.eqb_eq in H2. subst. reflexivity.
        -- destruct (ti_path_collection item) as [[entries |] |] eqn:Hpc; simpl.
           ++ destruct (existsb _ entries) eqn:H3; simpl.
              ** intros _. left. exists f. repeat split; [apply truthy_ne; exact Hf |].
                 right; right. exists entries. split; [exact Hpc |].
                 apply existsb_exists in H3 as [e [Hin He]].
                 destruct e as [[i |] |]; try discriminate.
                 apply String.eqb_eq in He. subst. exact Hin.
              ** destruct (opt_truthy folder_name) eqn:Hn; simpl; [| discriminate].
                 destruct folder_name as [n |]; [| discriminate].
                 intros Hm. right. exists n. repeat split; [apply truthy_ne; exact Hn | exact Hm].
           ++ destruct (opt_truthy folder_name) eqn:Hn; simpl; [| discriminate].
              destruct folder_name as [n |]; [| discriminate].
              intros Hm. right. exists n. repeat split; [apply truthy_ne; exact Hn | exact Hm].
           ++ destruct (opt_truthy folder_name) eqn:Hn; simpl; [| discriminate].
              destruct folder_name as [n |]; [| discriminate].
              intros Hm. right. exists n. repeat split; [apply truthy_ne; exact Hn | exact Hm].
    + destruct (opt_truthy folder_name) eqn:Hn; simpl; [| discriminate].
      destruct folder_name as [n |]; [| discriminate].
      intros Hm. right. exists n. repeat split; [apply truthy_ne; exact Hn | exact Hm].
  - destruct (opt_truthy folder_name) eqn:Hn; simpl; [| discriminate].
    destruct folder_name as [n |]; [| discriminate].
    intros Hm. right. exists n. repeat split; [apply truthy_ne; exact Hn | exact Hm].
Qed.

(** C10: missing metadata never excludes an item.  An item with no
    deletion time, an empty one, or one that does not parse passes the
    date check, and then it is kept exactly when the user and folder
    checks pass; an item with no recorded deleting user passes the user
    check, and then it is kept exactly when the date and folder checks
    pass. *)
Theorem missing_metadata_never_excludes (folder_id folder_name : option string)
    (user_filter : string) (items : list trashed_item) (item : trashed_item) :
  let kept := filter_trashed_items parse_iso cutoff_date folder_id folder_name user_filter items in
  ((ti_trashed_at item = None \/ ti_trashed_at item = Some "" \/
    exists s, ti_trashed_at item = Some s /\ parse_iso (Py.replace_all "Z" "+00:00" s) = None) ->
     date_check parse_iso cutoff_date item = true /\
     (In item kept <-> In item items /\ user_check user_filter item = true /\
                       folder_check folder_id folder_name item = true)) /\
  (ti_trashed_by item = None ->
     user_check user_filter item = true /\
     (In item kept <-> In item items /\ date_check parse_iso cutoff_date item = true /\
                       folder_check folder_id folder_name item = true)).
Proof.
  intros kept. unfold kept. split.
  - intros Hmiss.
    assert (Hd : date_check parse_iso cutoff_date item = true).
    { unfold date_check.
      destruct Hmiss as [-> | [-> | (s & -> & Hp)]]; [reflexivity | reflexivity |].
      rewrite Hp. destruct (Py.truthy s); reflexivity. }
    split; [exact Hd |]. rewrite filter_trashed_items_In. rewrite Hd. tauto.
  - intros Hby.
    assert (Hu : user_check user_filter item = true).
    { unfold user_check. rewrite Hby. destruct (Py.truthy user_filter); reflexivity. }
    split; [exact Hu |]. rewrite filter_trashed_items_In. rewrite Hu. tauto.
Qed.

End Props.

(** C3 fails at a timestamp with a positive offset.  A trashed item
    stamped [2026-10-08T15:00:00+05:00], that is 10:00 UTC, was deleted
    two hours before a cutoff of 2026-10-08 12:00 UTC ([utcnow()] minus
    the look-back), yet [filter_trashed_items] keeps it: the cutoff is
    given the item's offset by [replace] instead of being converted to
    it, so 15:00 is compared with 12:00. *)
Theorem filter_keeps_item_trashed_before_cutoff :
  let s := "2026-10-08T15:00:00+05:00" in
  let cutoff_date := IsoTime.civil_seconds 2026 10 8 12 0 0 in
  let item := mkItem "1001" "data.csv" (Some s) (Some (TBDict [("login", "aeadata@example.org")]))
                     None None in
  (exists dt, IsoTime.fromisoformat s = Some dt /\ (IsoTime.utc_seconds dt < cutoff_date)%Z) /\
  filter_trashed_items IsoTime.wall_of_iso cutoff_date None None "aeadata" [item] = [item].
Proof.
  split.
  - eexists. split; [vm_compute; reflexivity | vm_compute; reflexivity].
  - vm_compute. reflexivity.
Qed.

End TrashProps.

(* ================================================================== *)
(** * Further properties of the code *)

(* ------------------------------------------------------------------ *)
(** ** The recursive walk of [classify_files_recursive] *)

Module WalkProps.
Import Classify.
Local Open Scope list_scope.

(** All files reachable through readable listings, in the order the walk
    visits them, with the paths the walk gives them. *)
Fixpoint item_files (path_prefix : string) (it : box_item) : list file_info :=
  match it with
  | BFile id name size =>
      [{| fi_id := id; fi_name := name; fi_size := size; fi_path := (path_prefix ++ "/" ++ name)%string |}]
  | BFolder id name listing =>
      match listing with
      | None => []
      | Some items =>
          (fix go (l : list box_item) :=
             match l with
             | [] => []
             | x :: r => item_files (path_prefix ++ "/" ++ name)%string x ++ go r
             end) items
      end
  | BOther _ _ => []
  end.

Definition is_data (f : file_info) : bool :=
  match classify_name (fi_name f) with DataFile => true | DocumentFile => false end.

Lemma recurse_item_partition (it : box_item) (p : string) :
  recurse_item p it = (filter is_data (item_files p it), filter (fun f => negb (is_data f)) (item_files p it)).
Proof.
  revert it p. fix IH 1. intros [id name size | id name [items |] | id name] p; simpl.
  - unfold is_data; simpl. destruct (classify_name name); reflexivity.
  - revert items. fix IHl 1. intros [| x r]; [reflexivity |].
    unfold app2. rewrite IH, IHl. simpl. rewrite !filter_app. reflexivity.
  - reflexivity.
  - reflexivity.
Qed.

Lemma recurse_items_partition (items : list box_item) (p : string) :
  recurse_items p items =
  (filter is_data (flat_map (item_files p) items),
   filter (fun f => negb (is_data f)) (flat_map (item_files p) items)).
Proof.
  induction items as [| x r IH]; simpl; [reflexivity |].
  unfold app2. rewrite recurse_item_partition, IH. simpl. rewrite !filter_app. reflexivity.
Qed.

(** [classify_files_recursive] splits the files of the readable part of
    the tree, in visiting order, into the data files and the rest: each
    file is in exactly one of the two lists, by the class of its name;
    nothing below an unreadable folder is listed. *)
Theorem classify_files_recursive_partition (items : list box_item) :
  let all := flat_map (item_files "") items in
  classify_files_recursive (Some items) = (filter is_data all, filter (fun f => negb (is_data f)) all) /\
  List.length (fst (classify_files_recursive (Some items))) +
  List.length (snd (classify_files_recursive (Some items))) = List.length all.
Proof.
  intros all. unfold classify_files_recursive.
  rewrite recurse_items_partition. fold all. split; [reflexivity |]. simpl.
  clear. induction all as [| f r IH]; simpl; [reflexivity |].
  destruct (is_data f); simpl; lia.
Qed.

Lemma lower_char_idem (c : ascii) : Py.lower_char (Py.lower_char c) = Py.lower_char c.
Proof. destruct c as [[] [] [] [] [] [] [] []]; reflexivity. Qed.

Lemma lower_idem (s : string) : Py.lower (Py.lower s) = Py.lower s.
Proof. induction s as [| c s IH]; simpl; [reflexivity | rewrite lower_char_idem, IH; reflexivity]. Qed.


Lemma lower_char_dot (c : ascii) : Py.lower_char c = "."%char -> c = "."%char.
Proof. destruct c as [[] [] [] [] [] [] [] []]; intros H; vm_compute in H; first [reflexivity | discriminate H]. Qed.

Lemma lower_no_dot (x : string) : Py.contains "." x = false -> Py.contains "." (Py.lower x) = false.
Proof.
  induction x as [| c x IH]; [reflexivity |].
  intros H. cbn [Py.contains Py.lower Py.startswith] in H |- *.
  rewrite !DiscoverProps.startswith_nil, !andb_true_r in *.
  apply orb_false_iff in H as [H1 H2].
  rewrite IH by exact H2. rewrite orb_false_r.
  destruct (Ascii.eqb "." (Py.lower_char c)) eqn:E; [| reflexivity].
  apply Ascii.eqb_eq in E. symmetry in E. apply lower_char_dot in E. subst c. discriminate.
Qed.

Lemma last_dot_no_dot (x : string) (i : nat) (acc : option nat) :
  Py.contains "." x = false -> Py.last_dot_aux i x acc = acc.
Proof.
  revert i. induction x as [| c x IH]; intros i; [reflexivity |].
  intros H. cbn [Py.contains Py.startswith Py.last_dot_aux] in H |- *.
  rewrite DiscoverProps.startswith_nil, andb_true_r in H.
  apply orb_false_iff in H as [H1 H2].
  rewrite Ascii.eqb_sym, H1. apply IH. exact H2.
Qed.

Lemma last_sep_ge (x : string) (i j : nat) :
  Py.last_sep_aux i x None = Some j -> i <= j.
Proof.
  assert (G : forall x i acc j, (forall k, acc = Some k -> i <= S k \/ True) ->
              Py.last_sep_aux i x acc = Some j -> (exists k, acc = Some k /\ j = k) \/ i <= j).
  { clear. induction x as [| c x IH]; intros i acc j _ H; simpl in H.
    - left. exists j. auto.
    - destruct (Ascii.eqb c "/"%char).
      + apply IH in H; [| auto]. destruct H as [(k & Hk & ->) | H]; [injection Hk as <-; right; lia | right; lia].
      + apply IH in H; [| auto]. destruct H as [H | H]; [left; exact H | right; lia]. }
  intros H. apply G in H; [| auto]. destruct H as [(k & Hk & _) | H]; [discriminate | exact H].
Qed.

(** A file whose name is a dot followed by a dot-free rest (for example
    [.csv] or [.DTA]) has no extension for [os.path.splitext], so it is
    classified as a document and kept. *)
Theorem classify_name_dotfile (x : string) :
  Py.contains "." x = false -> classify_name ("." ++ x) = DocumentFile.
Proof.
  intros H. unfold classify_name.
  assert (Hext : Py.splitext_ext (Py.lower ("." ++ x)) = "").
  { change (Py.lower ("." ++ x)) with (String "." (Py.lower x)).
    pose proof (lower_no_dot x H) as Hl.
    unfold Py.splitext_ext. cbn [Py.last_dot_aux].
    replace (if Ascii.eqb "." "." then Some 0 else None) with (Some 0) by reflexivity.
    rewrite (last_dot_no_dot _ 1 (Some 0) Hl).
    destruct (Py.last_sep_aux 0 (String "." (Py.lower x)) None) as [j |] eqn:Hs.
    - cbn [Py.last_sep_aux] in Hs. simpl in Hs. apply last_sep_ge in Hs.
      replace (Z.of_nat j <? Z.of_nat 0)%Z with false by (symmetry; apply Z.ltb_ge; lia). reflexivity.
    - reflexivity. }
  rewrite Hext. reflexivity.
Qed.

Lemma classify_name_dotfile_witness :
  Py.contains "." "CSV" = false /\ classify_name ("." ++ "CSV") = DocumentFile.
Proof. split; [reflexivity | apply classify_name_dotfile; reflexivity]. Defined.

End WalkProps.

(* ------------------------------------------------------------------ *)
(** ** Counters and calls of the cleanup run *)

Module AccountingProps.
Import Classify Cleanup.
Local Open Scope list_scope.

Definition delete_ok (E : env) (f : file_info) : bool :=
  match delete_result E (fi_id f) with None => true | Some _ => false end.

Definition sum_sizes (l : list file_info) : Z :=
  fold_right (fun f acc => (fi_size f + acc)%Z) 0%Z l.

(** The files [delete_data_files] counts as deleted: all of them in a dry
    run, the ones whose [delete()] succeeds in a live run. *)
Definition counted (E : env) (test_mode : bool) (files : list file_info) : list file_info :=
  if test_mode then files else filter (delete_ok E) files.

Lemma delete_loop_effect (E : env) (t : bool) (files : list file_info) (c b : Z) (s : st) :
  delete_loop E t files c b s =
  ((c + Z.of_nat (List.length (counted E t files)), b + sum_sizes (counted E t files))%Z,
   mkSt (add_errors (Z.of_nat (List.length files - List.length (counted E t files))) (stats_of s))
        (trace s ++ map (fun f => (negb t, ADelete (fi_id f))) files)).
Proof.
  revert c b s. unfold counted.
  induction files as [| f r IH]; intros c b [x tr].
  - destruct t; simpl; rewrite ?Z.add_0_r, ?app_nil_r;
      destruct x; unfold add_errors; simpl; rewrite ?Z.add_0_r; reflexivity.
  - destruct t.
    + cbn [delete_loop]. unfold bind, emit; cbn [snd fst stats_of trace]. rewrite IH; simpl. rewrite <- app_assoc. simpl.
      f_equal; try (f_equal; rewrite ?Zpos_P_of_succ_nat; lia).
    + assert (Hf : filter (delete_ok E) (f :: r) =
                   if delete_ok E f then f :: filter (delete_ok E) r else filter (delete_ok E) r)
        by reflexivity.
      assert (Hle : List.length (filter (delete_ok E) r) <= List.length r) by apply filter_length_le.
      rewrite Hf. cbn [delete_loop].
      destruct (delete_result E (fi_id f)) eqn:Hd;
        [assert (Hok : delete_ok E f = false) by (unfold delete_ok; rewrite Hd; reflexivity)
        | assert (Hok : delete_ok E f = true) by (unfold delete_ok; rewrite Hd; reflexivity)];
        rewrite Hok; unfold bind, emit, modify_stats; cbn [negb snd fst stats_of trace].
      * rewrite IH. cbn [stats_of trace]. rewrite <- app_assoc. cbn [app map List.length].
        f_equal. f_equal. destruct x; unfold add_errors; cbn. f_equal.
        destruct (List.length (filter (delete_ok E) r)); lia.
      * rewrite IH. cbn [stats_of trace]. rewrite <- app_assoc. cbn [app map List.length].
        unfold sum_sizes; cbn [fold_right]. f_equal; try (f_equal; lia).
Qed.

(** [delete_data_files] returns the number of files it counts as deleted
    and adds that number to [files_deleted] and their sizes to
    [bytes_deleted]: in a dry run every file, with no call issued; in a
    live run exactly the files whose [delete()] succeeds, each failure
    adding one to [errors].  One [delete] is issued (or logged) per file,
    in order, and no other counter moves. *)
Theorem delete_data_files_accounting (E : env) (test_mode : bool) (files : list file_info) (s : st) :
  let done := counted E test_mode files in
  delete_data_files E test_mode files s =
  (Z.of_nat (List.length done),
   mkSt (mkStats (folders_checked (stats_of s)) (folders_ready (stats_of s)) (folders_moved (stats_of s))
                 (files_deleted (stats_of s) + Z.of_nat (List.length done))
                 (bytes_deleted (stats_of s) + sum_sizes done)
                 (errors (stats_of s) + Z.of_nat (List.length files - List.length done)))
        (trace s ++ map (fun f => (negb test_mode, ADelete (fi_id f))) files)).
Proof.
  intros done. unfold delete_data_files, bind. rewrite delete_loop_effect. simpl.
  unfold modify_stats, ret; simpl. destruct s as [[] tr]; reflexivity.
Qed.

(** The progress counters of a case. *)
Definition progress (x : stats) : Z * Z * Z := (folders_checked x, folders_ready x, folders_moved x).

Definition keeps_progress {A} (m : M A) : Prop :=
  forall s, progress (stats_of (snd (m s))) = progress (stats_of s).

Lemma keeps_progress_bind {A B} (m : M A) (k : A -> M B) :
  keeps_progress m -> (forall a, keeps_progress (k a)) -> keeps_progress (bind m k).
Proof.
  intros Hm Hk s. unfold bind. specialize (Hm s). destruct (m s) as [a s'] eqn:Hs.
  simpl in Hm. rewrite Hk. exact Hm.
Qed.

Lemma keeps_progress_delete_loop E t files c b : keeps_progress (delete_loop E t files c b).
Proof.
  unfold keeps_progress; intros s. rewrite delete_loop_effect. destruct s as [[] tr]; reflexivity.
Qed.

Lemma keeps_progress_delete E t files : keeps_progress (delete_data_files E t files).
Proof.
  unfold keeps_progress; intros s. unfold delete_data_files, bind. rewrite delete_loop_effect.
  destruct s as [[] tr]; reflexivity.
Qed.

Lemma keeps_progress_move E t fid cid : keeps_progress (move_folder_to_completed E t fid cid).
Proof.
  unfold keeps_progress; intros [x tr]. unfold move_folder_to_completed, bind, emit, ret, modify_stats.
  destruct t; simpl; [reflexivity |].
  destruct cid as [c |]; [| reflexivity]. destruct (Py.truthy c); [| reflexivity]. simpl.
  destruct (move_result E fid); [reflexivity |].
  destruct (Py.contains _ _); simpl; [reflexivity |]. destruct x; reflexivity.
Qed.

(** Whether the move of a case folder succeeds. *)
Definition moves (E : env) (t : bool) (cid : option string) (fid : string) : bool :=
  t || match cid with
       | Some c => Py.truthy c && match move_result E fid with MoveOk => true | MoveError _ => false end
       | None => false
       end.

Lemma move_result_value E t fid cid s :
  fst (move_folder_to_completed E t fid cid s) = moves E t cid fid.
Proof.
  destruct s as [x tr]. unfold move_folder_to_completed, moves, bind, emit, ret, modify_stats.
  destruct t; simpl; [reflexivity |].
  destruct cid as [c |]; [| reflexivity]. destruct (Py.truthy c); [| reflexivity]. simpl.
  destruct (move_result E fid); [reflexivity |].
  destruct (Py.contains _ _); reflexivity.
Qed.

Definition case_ready (E : env) (c : Discover.case_folder) : bool :=
  let '(_, _, cn) := c in is_ready E cn.
Definition case_moved (E : env) (t : bool) (cid : option string) (c : Discover.case_folder) : bool :=
  let '(fid, _, cn) := c in is_ready E cn && moves E t cid fid.

Lemma process_case_folder_progress E t fid cn cid s :
  progress (stats_of (snd (process_case_folder E t fid cn cid s))) =
  let '(c, r, m) := progress (stats_of s) in
  (c + 1, r + (if is_ready E cn then 1 else 0), m + (if is_ready E cn && moves E t cid fid then 1 else 0))%Z.
Proof.
  destruct s as [x tr]. unfold process_case_folder, bind, modify_stats. cbn [stats_of snd].
  destruct (is_ready E cn); simpl.
  - rewrite <- (move_result_value E t fid cid
                   (mkSt (add_ready 1 (add_checked 1 x)) tr)).
    pose proof (keeps_progress_move E t fid cid (mkSt (add_ready 1 (add_checked 1 x)) tr)) as Hk.
    destruct (move_folder_to_completed E t fid cid (mkSt (add_ready 1 (add_checked 1 x)) tr)) as [ok s1].
    simpl in Hk |- *. destruct ok; simpl.
    + destruct (fst (classify_files_recursive (listing_of E fid))) as [| f r] eqn:Hd; simpl.
      * destruct s1 as [y tr1]; simpl in *. unfold progress in *; simpl in *.
        injection Hk as H1 H2 H3. rewrite H1, H2, H3. destruct x; simpl; f_equal; f_equal; lia.
      * pose proof (keeps_progress_delete E t (f :: r) (mkSt (add_moved 1 (stats_of s1)) (trace s1))) as Hk2.
        destruct (delete_data_files E t (f :: r) _) as [n s2]; simpl in *.
        rewrite Hk2. destruct s1 as [y tr1]; simpl in *. unfold progress in *; simpl in *.
        injection Hk as H1 H2 H3. rewrite H1, H2, H3. destruct x; simpl; f_equal; f_equal; lia.
    + destruct s1 as [y tr1]; simpl in *. unfold progress in *; simpl in *.
      injection Hk as H1 H2 H3. rewrite H1, H2, H3. destruct x; simpl; f_equal; f_equal; lia.
  - unfold progress; destruct x; simpl. f_equal; f_equal; lia.
Qed.

Definition count_true {A} (p : A -> bool) (l : list A) : Z :=
  Z.of_nat (List.length (filter p l)).

(** Over a list of case folders, [folders_checked] grows by the number of
    cases, [folders_ready] by the number of cases Jira reports ready, and
    [folders_moved] by the number of ready cases whose move succeeds (all
    ready cases in a dry run); so moved <= ready <= checked holds for the
    increments, whatever the remote calls do. *)
Theorem process_all_progress (E : env) (t : bool) (cid : option string)
    (cases : list Discover.case_folder) (s : st) :
  let x := stats_of s in
  let y := stats_of (snd (process_all E t cid cases s)) in
  folders_checked y = (folders_checked x + Z.of_nat (List.length cases))%Z /\
  folders_ready y = (folders_ready x + count_true (case_ready E) cases)%Z /\
  folders_moved y = (folders_moved x + count_true (case_moved E t cid) cases)%Z /\
  (count_true (case_moved E t cid) cases <= count_true (case_ready E) cases <= Z.of_nat (List.length cases))%Z.
Proof.
  unfold count_true. revert s.
  induction cases as [| [[fid fname] cn] r IH]; intros s; simpl.
  - lia.
  - unfold bind. pose proof (process_case_folder_progress E t fid cn cid s) as Hp.
    destruct (process_case_folder E t fid cn cid s) as [b s1]. simpl in Hp.
    destruct (IH s1) as (H1 & H2 & H3 & H4 & H5).
    unfold progress in Hp. destruct (stats_of s) as [c0 r0 m0 d0 b0 e0]; simpl in *.
    injection Hp as P1 P2 P3. rewrite P1 in H1. rewrite P2 in H2. rewrite P3 in H3.
    destruct (is_ready E cn); simpl in *;
      [destruct (moves E t cid fid); simpl in * |]; rewrite ?Nat2Z.inj_succ; repeat split; lia.
Qed.

(** A computation that issues no call: it only appends entries logged as
    dry-run ([false]) to the trace. *)
Definition dry {A} (m : M A) : Prop :=
  forall s, exists extra, trace (snd (m s)) = trace s ++ extra /\ Forall (fun e => fst e = false) extra.

Lemma dry_ret {A} (a : A) : dry (ret a).
Proof. intros s. exists []. rewrite app_nil_r. split; [reflexivity | constructor]. Qed.

Lemma dry_bind {A B} (m : M A) (k : A -> M B) : dry m -> (forall a, dry (k a)) -> dry (bind m k).
Proof.
  intros Hm Hk s. unfold bind. destruct (Hm s) as (e1 & He1 & F1).
  destruct (m s) as [a s1]. destruct (Hk a s1) as (e2 & He2 & F2). simpl in He1.
  exists (e1 ++ e2). split; [rewrite He2, He1, app_assoc; reflexivity | apply Forall_app; auto].
Qed.

Lemma dry_modify f : dry (modify_stats f).
Proof. intros s. exists []. rewrite app_nil_r. split; [reflexivity | constructor]. Qed.

Lemma dry_emit a : dry (emit false a).
Proof. intros s. exists [(false, a)]. split; [reflexivity | repeat constructor]. Qed.

Create HintDb dryrun.
#[local] Hint Resolve dry_ret dry_bind dry_modify dry_emit : dryrun.

Lemma dry_delete_loop E files c b : dry (delete_loop E true files c b).
Proof.
  revert c b. induction files as [| f r IH]; intros c b; simpl; eauto with dryrun.
Qed.
#[local] Hint Resolve dry_delete_loop : dryrun.

Lemma dry_process_all E cid cases : dry (process_all E true cid cases).
Proof.
  induction cases as [| [[fid fname] cn] r IH]; simpl; [apply dry_ret |].
  apply dry_bind; [| intros; exact IH].
  unfold process_case_folder. apply dry_bind; [apply dry_modify | intros _].
  destruct (negb (is_ready E cn)); [apply dry_ret |].
  apply dry_bind; [apply dry_modify | intros _].
  apply dry_bind; [unfold move_folder_to_completed; eauto with dryrun | intros ok].
  destruct (negb ok); [apply dry_ret |].
  apply dry_bind; [apply dry_modify | intros _].
  destruct (fst _); [apply dry_ret |].
  apply dry_bind; [| intros; apply dry_ret].
  unfold delete_data_files. apply dry_bind; [apply dry_delete_loop | intros [n b]].
  eauto with dryrun.
Qed.

(** A dry run ([test_mode]) never exits and never issues a create, move
    or delete, whatever Box answers: resolving [1Completed] and
    processing every case folder only logs [[DRY RUN] Would ...] lines
    for them, even when the root listing fails or [1Completed] is
    missing.  (Folder listings are read in a dry run too; they are not
    part of the trace.) *)
Theorem dry_run_issues_no_call (E : env) (cases : list Discover.case_folder) (s : st) :
  fst (run_cases E true cases s) = true /\
  exists extra, trace (snd (run_cases E true cases s)) = trace s ++ extra /\
                Forall (fun e => fst e = false) extra.
Proof.
  split.
  - unfold run_cases, get_or_create_completed_folder, bind.
    destruct (root_listing E) as [items |]; simpl.
    + destruct (find _ items); simpl.
      * destruct (process_all E true _ cases s); reflexivity.
      * unfold bind, emit, ret; simpl. destruct (process_all E true None cases _); reflexivity.
    + destruct (process_all E true None cases s); reflexivity.
  - apply (dry_bind (get_or_create_completed_folder E true)).
    + unfold get_or_create_completed_folder.
      destruct (root_listing E); [destruct (find _ _) |]; eauto with dryrun.
    + intros [c |]; [apply dry_bind; [apply dry_process_all | intros; apply dry_ret] | apply dry_ret].
Qed.


(** ** Which folders a run moves *)

Definition emits_only {A} (P : bool * action -> Prop) (m : M A) : Prop :=
  forall s, exists extra, trace (snd (m s)) = trace s ++ extra /\ Forall P extra.

Lemma emits_only_ret {A} P (a : A) : emits_only P (ret a).
Proof. intros s. exists []. rewrite app_nil_r. split; [reflexivity | constructor]. Qed.

Lemma emits_only_bind {A B} P (m : M A) (k : A -> M B) :
  emits_only P m -> (forall a, emits_only P (k a)) -> emits_only P (bind m k).
Proof.
  intros Hm Hk s. unfold bind. destruct (Hm s) as (e1 & He1 & F1).
  destruct (m s) as [a s1]. destruct (Hk a s1) as (e2 & He2 & F2). simpl in He1.
  exists (e1 ++ e2). split; [rewrite He2, He1, app_assoc; reflexivity | apply Forall_app; auto].
Qed.

Lemma emits_only_modify P f : emits_only P (modify_stats f).
Proof. intros s. exists []. rewrite app_nil_r. split; [reflexivity | constructor]. Qed.

Lemma emits_only_emit (P : bool * action -> Prop) b a : P (b, a) -> emits_only P (emit b a).
Proof. intros H s. exists [(b, a)]. split; [reflexivity | repeat constructor; exact H]. Qed.

(** Trace entries that are moves satisfy [ok]. *)
Definition moves_ok (ok : string -> Prop) (e : bool * action) : Prop :=
  match snd e with AMove f => ok f | _ => True end.

Lemma emits_only_delete_loop E t ok files c b : emits_only (moves_ok ok) (delete_loop E t files c b).
Proof.
  revert c b. induction files as [| f r IH]; intros c b; simpl; [apply emits_only_ret |].
  destruct t.
  - apply emits_only_bind; [apply emits_only_emit; exact I | intros; apply IH].
  - apply emits_only_bind; [apply emits_only_emit; exact I | intros _].
    destruct (delete_result E (fi_id f)); [| apply IH].
    apply emits_only_bind; [apply emits_only_modify | intros; apply IH].
Qed.

Lemma emits_only_process_all E t cid (ok : string -> Prop) cases :
  (forall f n cn, In (f, n, cn) cases -> ok f) -> emits_only (moves_ok ok) (process_all E t cid cases).
Proof.
  induction cases as [| [[fid fname] cn] r IH]; intros Hok; simpl; [apply emits_only_ret |].
  apply emits_only_bind; [| intros; apply IH; intros f n c Hin; apply (Hok f n c); right; exact Hin].
  assert (Hf : ok fid) by (apply (Hok fid fname cn); left; reflexivity).
  unfold process_case_folder.
  apply emits_only_bind; [apply emits_only_modify | intros _].
  destruct (negb (is_ready E cn)); [apply emits_only_ret |].
  apply emits_only_bind; [apply emits_only_modify | intros _].
  apply emits_only_bind.
  - unfold move_folder_to_completed. destruct t.
    + apply emits_only_bind; [apply emits_only_emit; exact Hf | intros; apply emits_only_ret].
    + destruct cid as [c |]; [| apply emits_only_ret]. destruct (Py.truthy c); [| apply emits_only_ret].
      apply emits_only_bind; [apply emits_only_emit; exact Hf | intros _].
      destruct (move_result E fid); [apply emits_only_ret |].
      destruct (Py.contains _ _); [apply emits_only_ret |].
      apply emits_only_bind; [apply emits_only_modify | intros; apply emits_only_ret].
  - intros ok'. destruct (negb ok'); [apply emits_only_ret |].
    apply emits_only_bind; [apply emits_only_modify | intros _].
    destruct (fst _); [apply emits_only_ret |].
    apply emits_only_bind; [| intros; apply emits_only_ret].
    unfold delete_data_files. apply emits_only_bind; [apply emits_only_delete_loop | intros [n b]].
    apply emits_only_bind; [apply emits_only_modify | intros; apply emits_only_ret].
Qed.

(** A cleanup run only ever moves (or, in a dry run, logs a move of) a
    folder of the Box root whose name is a case-folder name
    [aearep-<digits>]; with a non-empty [--case], only a folder of that
    case number. *)
Theorem run_moves_only_case_folders (E : env) (test_mode skip_jira script_exists : bool)
    (specific_case : option string) (auto_confirm : bool) (response : string) (s : st) :
  exists extra,
    trace (snd (CleanupRun.run E test_mode skip_jira script_exists specific_case auto_confirm response s))
      = trace s ++ extra /\
    forall b fid, In (b, AMove fid) extra ->
      exists items e cn, root_listing E = Some items /\ In e items /\ Discover.re_id e = fid /\
        Discover.re_type e = "folder" /\ Discover.case_pattern_match (Discover.re_name e) = Some cn /\
        (specific_case = None \/ specific_case = Some "" \/ specific_case = Some cn).
Proof.
  set (ok := fun fid => exists items e cn, root_listing E = Some items /\ In e items /\ Discover.re_id e = fid /\
        Discover.re_type e = "folder" /\ Discover.case_pattern_match (Discover.re_name e) = Some cn /\
        (specific_case = None \/ specific_case = Some "" \/ specific_case = Some cn)).
  enough (H : emits_only (moves_ok ok)
                (CleanupRun.run E test_mode skip_jira script_exists specific_case auto_confirm response)).
  { destruct (H s) as (extra & He & F). exists extra. split; [exact He |].
    intros b fid Hin. rewrite Forall_forall in F. exact (F _ Hin). }
  unfold CleanupRun.run.
  destruct (negb skip_jira && negb script_exists); [apply emits_only_ret |].
  unfold Discover.find_case_folders.
  destruct (root_listing E) as [items |] eqn:Hroot; [| apply emits_only_ret].
  destruct (Discover.sort_by_key (Discover.collect specific_case items)) as [| c rest] eqn:Hs;
    [apply emits_only_ret |].
  destruct (_ && _); [apply emits_only_ret |].
  unfold run_cases. apply emits_only_bind.
  - unfold get_or_create_completed_folder. rewrite Hroot.
    destruct (find _ items); [apply emits_only_ret |].
    destruct test_mode.
    + apply emits_only_bind; [apply emits_only_emit; exact I | intros; apply emits_only_ret].
    + apply emits_only_bind; [apply emits_only_emit; exact I | intros _].
      destruct (create_result E); apply emits_only_ret.
  - intros [cid |]; [| apply emits_only_ret].
    apply emits_only_bind; [| intros; apply emits_only_ret].
    apply emits_only_process_all. intros f n cn Hin. rewrite <- Hs in Hin.
    apply (Permutation_in _ (DiscoverProps.sort_by_key_perm _)) in Hin.
    apply DiscoverProps.collect_In in Hin as (e & cn' & H1 & H2 & H3 & H4 & H5).
    injection H5 as -> -> ->. exists items, e, cn'. auto 7.
Qed.

End AccountingProps.

(* ------------------------------------------------------------------ *)
(** ** Jira values and folder names *)

Module JiraProps.
Import Recover JiraLookup.

Lemma replace_no_occurrence (old new s : string) :
  Py.contains old s = false -> Py.replace_from old new 0 s = s.
Proof.
  induction s as [| c s IH]; [reflexivity |].
  intros H. simpl in H. apply orb_false_iff in H as [H1 H2].
  simpl. rewrite H1, IH by exact H2. reflexivity.
Qed.

Lemma lower_prefix (x : string) : Py.lower ("aearep-" ++ x) = ("aearep-" ++ Py.lower x)%string.
Proof. reflexivity. Qed.

Lemma replace_prefix (x : string) :
  Py.replace_all "aearep-" "" ("aearep-" ++ x) = Py.replace_from "aearep-" "" 0 x.
Proof. unfold Py.replace_all. cbn. rewrite DiscoverProps.startswith_nil. reflexivity. Qed.

(** [_matches_folder_name] accepts a folder name against itself and
    tolerates the ["aearep-"] prefix on the Box side for any name; on
    the Jira side it does so whenever the rest of the name holds no
    ["aearep-"], case ignored (the prefix is removed everywhere before
    comparing). *)
Theorem matches_folder_name_prefix_tolerant (x : string) :
  _matches_folder_name x x = true /\
  _matches_folder_name ("aearep-" ++ x) x = true /\
  (Py.contains "aearep-" (Py.lower x) = false -> _matches_folder_name x ("aearep-" ++ x) = true).
Proof.
  split; [| split].
  - unfold _matches_folder_name. rewrite String.eqb_refl. reflexivity.
  - unfold _matches_folder_name. rewrite lower_prefix.
    destruct (String.eqb ("aearep-" ++ Py.lower x) (Py.lower x)); [reflexivity |].
    destruct (Py.contains (Py.lower x) ("aearep-" ++ Py.lower x)); [reflexivity |].
    rewrite String.eqb_refl. reflexivity.
  - intros H. unfold _matches_folder_name. rewrite lower_prefix.
    destruct (String.eqb (Py.lower x) ("aearep-" ++ Py.lower x)); [reflexivity |].
    destruct (Py.contains ("aearep-" ++ Py.lower x) (Py.lower x)); [reflexivity |].
    destruct (_ || _); [reflexivity |].
    assert (Hs : Py.startswith ("aearep-" ++ Py.lower x) "aearep-" = true)
      by (cbn; apply DiscoverProps.startswith_nil).
    rewrite Hs. cbv zeta. rewrite replace_prefix. unfold Py.replace_all.
    rewrite (replace_no_occurrence _ _ _ H), String.eqb_refl. reflexivity.
Qed.

Lemma matches_folder_name_prefix_tolerant_witness :
  Py.contains "aearep-" (Py.lower "7712") = false /\
  _matches_folder_name "7712" ("aearep-" ++ "7712") = true.
Proof.
  split; [reflexivity |]. apply (matches_folder_name_prefix_tolerant "7712"). reflexivity.
Defined.

Lemma length_append_str (s t : string) : String.length (s ++ t) = String.length s + String.length t.
Proof. induction s as [| c s IH]; simpl; [reflexivity | rewrite IH; reflexivity]. Qed.

Lemma substring_prefix (s t : string) : substring 0 (String.length s) (s ++ t) = s.
Proof. induction s as [| c s IH]; simpl; [destruct t; reflexivity | rewrite IH; reflexivity]. Qed.

Lemma substring_suffix (s t : string) :
  substring (String.length s) (String.length t) (s ++ t) = substring 0 (String.length t) t.
Proof. induction s as [| c s IH]; simpl; [reflexivity | exact IH]. Qed.

Lemma substring_all (t : string) : substring 0 (String.length t) t = t.
Proof. induction t as [| c t IH]; simpl; [reflexivity | rewrite IH; reflexivity]. Qed.

Lemma endswith_app (s t : string) : Py.endswith (s ++ t) t = true.
Proof.
  unfold Py.endswith. rewrite length_append_str.
  replace (String.length s + String.length t - String.length t) with (String.length s) by lia.
  rewrite substring_suffix, substring_all, String.eqb_refl.
  apply andb_true_intro; split; [apply Nat.leb_le; lia | reflexivity].
Qed.

(** Characters of a decimal rendering: digits and a leading minus sign. *)
Lemma uint_no_dot (u : Decimal.uint) (i : nat) : get i (Py.string_of_uint u) <> Some "."%char.
Proof.
  revert i. induction u; intros [| i]; simpl; try discriminate; try apply IHu.
Qed.

Lemma str_of_Z_no_dot (z : Z) (i : nat) : get i (Py.str_of_Z z) <> Some "."%char.
Proof.
  destruct z as [| p | p]; simpl.
  - destruct i as [| [| i]]; discriminate.
  - apply uint_no_dot.
  - destruct i as [| i]; [discriminate | apply uint_no_dot].
Qed.

Lemma endswith_dot0_get (s : string) :
  Py.endswith s ".0" = true -> get (String.length s - 2) s = Some "."%char.
Proof.
  unfold Py.endswith. intros H. apply andb_prop in H as [Hl He].
  apply String.eqb_eq in He. apply Nat.leb_le in Hl. simpl in Hl, He.
  pose proof (substring_correct1 s (String.length s - 2) 2 0 ltac:(lia)) as Hg.
  rewrite He in Hg. simpl in Hg. rewrite <- Hg. f_equal; lia.
Qed.

(** [_clean_jira_numeric_field] removes one trailing [".0"] from a
    string value and leaves other strings alone; an integer value comes
    back as its plain decimal text, never shortened. *)
Theorem clean_jira_numeric_field_text (s : string) (z : Z) :
  _clean_jira_numeric_field (JStr (s ++ ".0")) = Ok (Some s) /\
  (Py.endswith s ".0" = false -> _clean_jira_numeric_field (JStr s) = Ok (Some s)) /\
  _clean_jira_numeric_field (JInt z) = Ok (Some (Py.str_of_Z z)).
Proof.
  split; [| split].
  - simpl. rewrite endswith_app. rewrite length_append_str. simpl.
    replace (String.length s + 2 - 2) with (String.length s) by lia.
    rewrite substring_prefix. reflexivity.
  - intros H. simpl. rewrite H. reflexivity.
  - simpl. destruct (Py.endswith (Py.str_of_Z z) ".0") eqn:H; [| reflexivity].
    exfalso. apply (str_of_Z_no_dot z (String.length (Py.str_of_Z z) - 2)).
    apply endswith_dot0_get. exact H.
Qed.

Lemma clean_jira_numeric_field_text_witness :
  Py.endswith "1.0.5" ".0" = false /\
  _clean_jira_numeric_field (JStr "1.0.5") = Ok (Some "1.0.5").
Proof.
  split; [reflexivity |]. apply (clean_jira_numeric_field_text "1.0.5" 0). reflexivity.
Defined.

(** [get_box_info_from_jira] never returns a folder name without a
    folder id, and never returns an empty folder id: the result is
    [(None, None)] or carries a non-empty id. *)
Theorem get_box_info_from_jira_shape (issue : option (list (string * jira_value)))
    (all_fields : option (list (string * string))) :
  get_box_info_from_jira issue all_fields = (None, None) \/
  exists box_folder_id, fst (get_box_info_from_jira issue all_fields) = Some box_folder_id /\
                        box_folder_id <> "".
Proof.
  unfold get_box_info_from_jira.
  destruct issue as [attrs |]; [| left; reflexivity].
  destruct all_fields as [fields |]; [| left; reflexivity].
  destruct (negb (opt_truthy (field_map_get "Restricted data Box ID" fields))); [left; reflexivity |].
  destruct (negb (jira_truthy _)); [left; reflexivity |].
  destruct (_clean_jira_numeric_field _) as [box_folder_id |]; [| left; reflexivity].
  destruct (negb (opt_truthy box_folder_id)) eqn:Ht; [left; reflexivity |].
  assert (Hid : exists i, box_folder_id = Some i /\ i <> "").
  { destruct box_folder_id as [i |]; [| discriminate]. exists i. split; [reflexivity |].
    intros ->. discriminate. }
  destruct Hid as (i & -> & Hne).
  destruct (opt_truthy (field_map_get "Bitbucket short name" fields));
    [destruct (jira_truthy _); [destruct (_clean_jira_numeric_field _) |] |];
    try (left; reflexivity); right; exists i; split; auto.
Qed.

End JiraProps.

(* ------------------------------------------------------------------ *)
(** ** What [filter_trashed_items] keeps *)

Module FilterProps.
Import Trash.

Lemma step_or (m c x : bool) :
  m = true \/ (c = true /\ x = true) -> (if negb m && c then x else m) = true.
Proof. destruct m, c; simpl; intuition congruence. Qed.

Lemma final_true (b m : bool) : m = true -> (if b then true else m) = true.
Proof. intros ->. destruct b; reflexivity. Qed.

Lemma truthy_of_ne (s : string) : s <> "" -> Py.truthy s = true.
Proof.
  intros H. unfold Py.truthy. destruct (String.eqb s "") eqn:E; [| reflexivity].
  apply String.eqb_eq in E. contradiction.
Qed.

Lemma associated_folder_check (folder_id folder_name : option string) (item : trashed_item) :
  TrashProps.associated folder_id folder_name item -> folder_check folder_id folder_name item = true.
Proof.
  intros Ha. unfold folder_check. cbv zeta.
  apply final_true.
  destruct Ha as [(f & -> & Hne & Hr) | (n & -> & Hne & Hm)].
  - pose proof (truthy_of_ne f Hne) as Hf. change (opt_truthy (Some f)) with (Py.truthy f). rewrite Hf.
    apply step_or; left. apply step_or.
    destruct Hr as [Hid | [Hp | (es & Hpc & Hin)]].
    + left. apply step_or. left. rewrite Hid, String.eqb_refl. reflexivity.
    + left. apply step_or. right. split; [rewrite ?andb_true_r; reflexivity |].
      rewrite Hp. simpl. rewrite Hf, String.eqb_refl. reflexivity.
    + right. split; [rewrite ?andb_true_r; reflexivity |]. rewrite Hpc. apply existsb_exists.
      exists (PEDict (Some f)). split; [exact Hin | apply String.eqb_refl].
  - apply step_or; right. split; [| exact Hm].
    rewrite ?andb_true_r. apply (truthy_of_ne n Hne).
Qed.

Lemma filter_trashed_items_In_associated (parse_iso : string -> option Z) (cutoff_date : Z)
    (folder_id folder_name : option string) (user_filter : string)
    (items : list trashed_item) (item : trashed_item) :
  In item (filter_trashed_items parse_iso cutoff_date folder_id folder_name user_filter items) <->
  In item items /\ date_check parse_iso cutoff_date item = true /\ user_check user_filter item = true /\
  ((opt_truthy folder_id = true \/ opt_truthy folder_name = true) ->
   TrashProps.associated folder_id folder_name item).
Proof.
  rewrite TrashProps.filter_trashed_items_In.
  split; intros (Hin & Hd & Hu & Hf); repeat split; auto.
  - intros Hgiven. apply TrashProps.folder_check_associated; assumption.
  - destruct (opt_truthy folder_id) eqn:Hi; [apply associated_folder_check; auto |].
    destruct (opt_truthy folder_name) eqn:Hn; [apply associated_folder_check; auto |].
    unfold folder_check. rewrite Hi, Hn. reflexivity.
Qed.

Lemma filter_trashed_items_as_filter (parse_iso : string -> option Z) (cutoff_date : Z)
    (folder_id folder_name : option string) (user_filter : string) (items : list trashed_item) :
  filter_trashed_items parse_iso cutoff_date folder_id folder_name user_filter items =
  filter (fun it => date_check parse_iso cutoff_date it && user_check user_filter it &&
                    folder_check folder_id folder_name it) items.
Proof.
  induction items as [| x r IH]; simpl; [reflexivity |]. rewrite IH.
  destruct (date_check parse_iso cutoff_date x), (user_check user_filter x),
           (folder_check folder_id folder_name x); reflexivity.
Qed.

(** [filter_trashed_items] returns the sublist of its input, in input
    order and with repeats, of the items passing the date, user and
    folder checks; so an item is kept exactly when it is in the input,
    passes the date and user checks and, when a folder id or name is
    given, satisfies one of the association rules; with neither given
    only the date and user checks apply. *)
Theorem filter_trashed_items_exact (parse_iso : string -> option Z) (cutoff_date : Z)
    (folder_id folder_name : option string) (user_filter : string) (items : list trashed_item) :
  let kept := filter_trashed_items parse_iso cutoff_date folder_id folder_name user_filter items in
  kept = filter (fun it => date_check parse_iso cutoff_date it && user_check user_filter it &&
                           folder_check folder_id folder_name it) items /\
  forall item, In item kept <->
    In item items /\ date_check parse_iso cutoff_date item = true /\ user_check user_filter item = true /\
    ((opt_truthy folder_id = true \/ opt_truthy folder_name = true) ->
     TrashProps.associated folder_id folder_name item).
Proof.
  intros kept. split; [apply filter_trashed_items_as_filter |].
  intros item. apply filter_trashed_items_In_associated.
Qed.

End FilterProps.

(* ------------------------------------------------------------------ *)
(** ** The restore phase of the recovery run *)

Module RestoreProps.
Import Trash Restore.
Local Open Scope list_scope.

Definition restored_ok (R : renv) (it : trashed_item) : bool :=
  match restore_result R (ti_id it) with RestoreOk => true | _ => false end.

(** Failures counted in [errors]: every failure except a Box name
    collision ([item_name_in_use]). *)
Definition counted_error (R : renv) (it : trashed_item) : bool :=
  match restore_result R (ti_id it) with
  | RestoreOk => false
  | RestoreBoxError msg => negb (Py.contains "item_name_in_use" (Py.lower msg))
  | RestoreOtherError => true
  end.

Definition ztrue (b : bool) : Z := if b then 1%Z else 0%Z.

Lemma restore_item_live (R : renv) (it : trashed_item) (t : string) (s : rst) :
  Py.truthy t = true ->
  restore_item R false it (Some t) s =
  (restored_ok R it,
   mkRSt (mkRStats (items_found (rstats_of s))
                   (items_restored (rstats_of s) + ztrue (restored_ok R it))
                   (errors (rstats_of s) + ztrue (counted_error R it)))
         (root_items s) (rtrace s ++ [(true, RRestore (ti_id it) (Some t))])).
Proof.
  intros Ht. unfold restore_item, bind, log, modify, ret. simpl. rewrite Ht. simpl.
  unfold restored_ok, counted_error.
  destruct (restore_result R (ti_id it)) as [| msg |]; simpl.
  - destruct (rstats_of s); simpl. rewrite Z.add_0_r. reflexivity.
  - destruct (Py.contains _ _); simpl; destruct (rstats_of s); simpl; rewrite ?Z.add_0_r; reflexivity.
  - destruct (rstats_of s); simpl. rewrite Z.add_0_r. reflexivity.
Qed.

Definition zcount {A} (p : A -> bool) (l : list A) : Z := Z.of_nat (List.length (filter p l)).

(** In a live run with a target folder, [restore_item] issues one
    restore per item, in order, to that folder; [items_restored] grows
    by the number of successful restores and [errors] by the number of
    failures other than a name collision, which is counted in neither. *)
Theorem restore_all_accounting (R : renv) (items : list trashed_item) (t : string) (s : rst) :
  Py.truthy t = true ->
  restore_all R false items (Some t) s =
  (tt, mkRSt (mkRStats (items_found (rstats_of s))
                       (items_restored (rstats_of s) + zcount (restored_ok R) items)
                       (errors (rstats_of s) + zcount (counted_error R) items))
             (root_items s) (rtrace s ++ map (fun it => (true, RRestore (ti_id it) (Some t))) items)).
Proof.
  intros Ht. unfold zcount. revert s.
  induction items as [| it r IH]; intros s.
  - simpl. rewrite app_nil_r, !Z.add_0_r. destruct s as [[] ro tr]; reflexivity.
  - cbn [restore_all]. unfold bind. rewrite restore_item_live by exact Ht. rewrite IH. simpl.
    rewrite <- app_assoc. simpl. f_equal. f_equal.
    unfold ztrue. destruct (restored_ok R it), (counted_error R it); simpl; f_equal; lia.
Qed.

Lemma restore_all_accounting_witness :
  let R := mkREnv (fun _ => None) None (fun _ => RestoreOk) in
  let s0 := mkRSt (mkRStats 0 0 0) None [] in
  Py.truthy "99" = true /\
  restore_all R false [mkItem "5" "a.csv" None None None None] (Some "99") s0 =
  (tt, mkRSt (mkRStats 0 (0 + zcount (restored_ok R) [mkItem "5" "a.csv" None None None None])
                         (0 + zcount (counted_error R) [mkItem "5" "a.csv" None None None None]))
             None ([] ++ map (fun it => (true, RRestore (ti_id it) (Some "99")))
                             [mkItem "5" "a.csv" None None None None])).
Proof.
  intros R s0. split; [reflexivity |].
  exact (restore_all_accounting R [mkItem "5" "a.csv" None None None None] "99" s0 eq_refl).
Defined.

(** ** Dry runs *)

Definition rdry {A} (m : RM A) : Prop :=
  forall s, let s' := snd (m s) in
  root_items s' = root_items s /\
  items_restored (rstats_of s') = items_restored (rstats_of s) /\
  errors (rstats_of s') = errors (rstats_of s) /\
  exists extra, rtrace s' = rtrace s ++ extra /\ Forall (fun e => fst e = false) extra.

Lemma rdry_ret {A} (a : A) : rdry (ret a).
Proof. intros s. simpl. repeat split; auto. exists []. rewrite app_nil_r. auto. Qed.

Lemma rdry_bind {A B} (m : RM A) (k : A -> RM B) : rdry m -> (forall a, rdry (k a)) -> rdry (bind m k).
Proof.
  intros Hm Hk s. unfold bind. destruct (Hm s) as (H1 & H2 & H3 & e1 & He1 & F1).
  destruct (m s) as [a s1]. simpl in *. destruct (Hk a s1) as (G1 & G2 & G3 & e2 & He2 & F2).
  repeat split; try congruence.
  exists (e1 ++ e2). split; [rewrite He2, He1, app_assoc; reflexivity | apply Forall_app; auto].
Qed.

Lemma rdry_log a : rdry (log false a).
Proof. intros s. simpl. repeat split; auto. exists [(false, a)]. auto. Qed.

Lemma rdry_get_root : rdry get_root.
Proof. intros s. simpl. repeat split; auto. exists []. rewrite app_nil_r. auto. Qed.

Lemma rdry_set_found n : rdry (modify (set_found n)).
Proof. intros s. simpl. repeat split; auto. exists []. rewrite app_nil_r. auto. Qed.

Create HintDb rdryrun.
#[local] Hint Resolve rdry_ret rdry_bind rdry_log rdry_get_root rdry_set_found : rdryrun.

Lemma rdry_goc R : rdry (get_or_create_completed_folder R true).
Proof.
  unfold get_or_create_completed_folder. apply rdry_bind; [apply rdry_get_root | intros [items |]].
  - destruct (find _ items); eauto with rdryrun.
  - apply rdry_ret.
Qed.
#[local] Hint Resolve rdry_goc : rdryrun.

Lemma rdry_find R name : rdry (find_case_folder_in_completed R true name).
Proof.
  unfold find_case_folder_in_completed. apply rdry_bind; [apply rdry_goc | intros [c |]; [| apply rdry_ret]].
  destruct (negb _); [apply rdry_ret |].
  destruct (folder_listing R _); [destruct (find _ _) |]; apply rdry_ret.
Qed.

Lemma rdry_restore_all R items t : rdry (restore_all R true items t).
Proof.
  induction items as [| it r IH]; simpl; [apply rdry_ret |].
  apply rdry_bind; [unfold restore_item; simpl; eauto with rdryrun | intros; exact IH].
Qed.

Lemma goc_dry_no_exit R s : fst (get_or_create_completed_folder R true s) <> None.
Proof.
  unfold get_or_create_completed_folder, bind, get_root. simpl.
  destruct (root_items s) as [items |]; simpl; [destruct (find _ items) |]; discriminate.
Qed.

Lemma find_dry_no_exit R name s : fst (find_case_folder_in_completed R true name s) <> None.
Proof.
  unfold find_case_folder_in_completed, bind at 1.
  pose proof (goc_dry_no_exit R s) as H.
  destruct (get_or_create_completed_folder R true s) as [[c |] s1]; [| contradiction].
  destruct (negb _); [discriminate |].
  unfold ret. destruct (folder_listing R _); [destruct (find _ _) |]; discriminate.
Qed.



(** ** Shape of the calls *)

Definition is_restore (e : bool * raction) : bool :=
  match snd e with RRestore _ _ => true | RCreate => false end.
Definition is_issued_create (e : bool * raction) : bool :=
  match e with (true, RCreate) => true | _ => false end.

Definition has_completed (s : rst) : Prop :=
  exists items it, root_items s = Some items /\ find is_completed items = Some it.

Definition only_creates (t : bool) (extra : list (bool * raction)) : Prop :=
  extra = [] \/ extra = [(negb t, RCreate)].

Lemma find_app_none {A} (p : A -> bool) (l : list A) (e : A) :
  find p l = None -> find p (l ++ [e]) = if p e then Some e else None.
Proof.
  induction l as [| x l IH]; simpl; [reflexivity |].
  destruct (p x); [discriminate | exact IH].
Qed.

Lemma goc_shape R t s :
  let s' := snd (get_or_create_completed_folder R t s) in
  rstats_of s' = rstats_of s /\
  (exists extra, rtrace s' = rtrace s ++ extra /\ only_creates t extra) /\
  (has_completed s -> s' = s) /\
  (t = false -> fst (get_or_create_completed_folder R t s) <> None -> has_completed s').
Proof.
  unfold get_or_create_completed_folder, bind, get_root, only_creates. cbv zeta.
  destruct s as [x ro tr]. cbn [root_items].
  destruct ro as [items |].
  - destruct (find is_completed items) as [it |] eqn:Hf.
    + cbn. refine (conj eq_refl (conj _ (conj _ _))).
      * exists []. rewrite app_nil_r. auto.
      * intros _. reflexivity.
      * intros _ _. exists items, it. auto.
    + destruct t; cbn.
      * refine (conj eq_refl (conj _ (conj _ _))).
        -- exists [(false, RCreate)]. auto.
        -- intros (items' & it' & He & Hf'). injection He as <-. congruence.
        -- discriminate.
      * destruct (create_result R) as [cid |]; cbn.
        -- refine (conj eq_refl (conj _ (conj _ _))).
           ++ exists [(true, RCreate)]. auto.
           ++ intros (items' & it' & He & Hf'). injection He as <-. congruence.
           ++ intros _ _. exists (items ++ [{| Discover.re_id := cid; Discover.re_name := "1Completed";
                                              Discover.re_type := "folder" |}]).
              rewrite find_app_none by exact Hf. eexists. split; reflexivity.
        -- refine (conj eq_refl (conj _ (conj _ _))).
           ++ exists [(true, RCreate)]. auto.
           ++ intros (items' & it' & He & Hf'). injection He as <-. congruence.
           ++ intros _ H. exfalso. apply H. reflexivity.
  - destruct t; cbn; refine (conj eq_refl (conj _ (conj _ _)));
      try (exists []; rewrite app_nil_r; auto; fail).
    + intros (items' & it' & He & _). discriminate.
    + discriminate.
    + intros (items' & it' & He & _). discriminate.
    + intros _ H. exfalso. apply H. reflexivity.
Qed.

Lemma find_shape R t name s :
  let s' := snd (find_case_folder_in_completed R t name s) in
  rstats_of s' = rstats_of s /\
  (exists extra, rtrace s' = rtrace s ++ extra /\ only_creates t extra) /\
  (t = false -> fst (find_case_folder_in_completed R t name s) <> None -> has_completed s').
Proof.
  pose proof (goc_shape R t s) as (G1 & G2 & _ & G4). cbv zeta in *.
  unfold find_case_folder_in_completed, bind.
  destruct (get_or_create_completed_folder R t s) as [c s1]. simpl in *.
  destruct c as [c |].
  - assert (Hs : forall A (a : A), snd (ret a s1) = s1 /\ fst (ret a s1) = a) by (intros; split; reflexivity).
    assert (Hk : exists a, (if negb (opt_truthy c) then ret (Some None)
               else match folder_listing R (match c with Some i => i | None => "" end) with
                    | Some items => match find (fun it => String.eqb (Discover.re_type it) "folder"
                                  && Recover._matches_folder_name (Discover.re_name it) name) items with
                                  | Some it => ret (Some (Some (Discover.re_id it)))
                                  | None => ret (Some None) end
                    | None => ret (Some None) end) s1 = (a, s1)).
    { destruct (negb _); [eexists; reflexivity |].
      destruct (folder_listing R _); [destruct (find _ _) |]; eexists; reflexivity. }
    destruct Hk as [a Hk]. rewrite Hk. simpl. refine (conj G1 (conj G2 _)).
    intros Ht _. apply G4; [exact Ht | discriminate].
  - simpl. refine (conj G1 (conj G2 _)). intros _ H. exfalso. apply H. reflexivity.
Qed.

Lemma restore_all_trace R t items tgt s :
  (t = true \/ opt_truthy tgt = true) ->
  rtrace (snd (restore_all R t items tgt s)) = rtrace s ++ map (fun it => (negb t, RRestore (ti_id it) tgt)) items.
Proof.
  intros Hc. revert s. induction items as [| it r IH]; intros s.
  - simpl. rewrite app_nil_r. reflexivity.
  - cbn [restore_all]. unfold bind.
    assert (Hi : rtrace (snd (restore_item R t it tgt s)) = rtrace s ++ [(negb t, RRestore (ti_id it) tgt)]).
    { unfold restore_item, bind, log, modify, ret.
      destruct t; [reflexivity |]. destruct Hc as [Hc | Hc]; [discriminate |].
      unfold opt_truthy in Hc |- *. rewrite Hc. simpl.
      destruct (restore_result R (ti_id it)); [| destruct (Py.contains _ _) |]; reflexivity. }
    destruct (restore_item R t it tgt s) as [b s1]. simpl in Hi.
    rewrite IH, Hi. rewrite <- app_assoc. reflexivity.
Qed.

Lemma target_shape R t name s :
  let m := if opt_truthy name then
             r <- find_case_folder_in_completed R t (match name with Some n => n | None => "" end) ;;
             match r with
             | None => ret None
             | Some t' => if opt_truthy t' then ret (Some t') else get_or_create_completed_folder R t
             end
           else get_or_create_completed_folder R t in
  exists extra, rtrace (snd (m s)) = rtrace s ++ extra /\
    Forall (fun e => snd e = RCreate) extra /\
    List.length (filter is_issued_create extra) <= 1.
Proof.
  assert (Honly : forall t extra, only_creates t extra ->
            Forall (fun e => snd e = RCreate) extra /\ List.length (filter is_issued_create extra) <= 1).
  { intros t0 extra [-> | ->]; [split; [constructor | simpl; lia] |].
    split; [repeat constructor | destruct t0; simpl; lia]. }
  cbv zeta. destruct (opt_truthy name).
  - unfold bind at 1.
    pose proof (find_shape R t (match name with Some n => n | None => "" end) s) as (F1 & (e1 & He1 & Ho1) & F3).
    cbv zeta in *.
    destruct (find_case_folder_in_completed R t _ s) as [[t' |] s1]; simpl in *.
    + destruct (opt_truthy t').
      * exists e1. simpl. rewrite He1. split; [reflexivity | apply (Honly t); exact Ho1].
      * pose proof (goc_shape R t s1) as (G1 & (e2 & He2 & Ho2) & G3 & _). cbv zeta in *.
        exists (e1 ++ e2). rewrite He2, He1, app_assoc. split; [reflexivity |].
        destruct (Honly t _ Ho1) as [A1 B1], (Honly t _ Ho2) as [A2 B2].
        split; [apply Forall_app; auto |]. rewrite filter_app, length_app.
        destruct t.
        -- destruct Ho1 as [-> | ->], Ho2 as [-> | ->]; simpl; lia.
        -- specialize (F3 eq_refl ltac:(discriminate)).
           assert (e2 = []) as ->.
           { rewrite (G3 F3) in He2. apply (f_equal (@List.length _)) in He2.
             rewrite length_app in He2. destruct e2; [reflexivity | simpl in He2; lia]. }
           simpl. rewrite Nat.add_0_r. exact B1.
    + exists e1. rewrite He1. split; [reflexivity | apply (Honly t); exact Ho1].
  - pose proof (goc_shape R t s) as (G1 & (e2 & He2 & Ho2) & _). cbv zeta in *.
    exists e2. split; [exact He2 | apply (Honly t); exact Ho2].
Qed.

Lemma restore_phase_trace_shape (R : renv) (test_mode : bool) (filtered : list trashed_item)
    (box_folder_name : option string) (list_only auto_confirm : bool) (response : string) (s : rst) :
  exists extra,
    rtrace (snd (restore_phase R test_mode filtered box_folder_name list_only auto_confirm response s))
      = rtrace s ++ extra /\
    (filter is_restore extra = [] \/
     exists target, Py.truthy target = true /\
       filter is_restore extra = map (fun it => (negb test_mode, RRestore (ti_id it) (Some target))) filtered) /\
    List.length (filter is_issued_create extra) <= 1.
Proof.
  unfold restore_phase, bind at 1. cbn [modify snd fst]. set (s1 := mkRSt _ _ _).
  assert (Htr : rtrace s1 = rtrace s) by reflexivity. clearbody s1.
  destruct list_only.
  { exists []. rewrite app_nil_r. simpl. auto. }
  destruct filtered as [| it rest] eqn:Hfl.
  { exists []. rewrite app_nil_r. simpl. auto. }
  destruct (_ && _).
  { exists []. rewrite app_nil_r. simpl. auto. }
  rewrite <- Hfl. unfold bind at 1.
  pose proof (target_shape R test_mode box_folder_name s1) as (e1 & He1 & Fa & Hc). cbv zeta in *.
  match goal with
  | He : rtrace (snd (?m s1)) = _ |- _ => destruct (m s1) as [[tgt |] s2]
  end; simpl in He1.
  - destruct (negb (opt_truthy tgt)) eqn:Ht.
    + exists e1. simpl. rewrite He1, Htr. split; [reflexivity | split; [| exact Hc]].
      left. clear -Fa. induction Fa as [| e l He _ IH]; [reflexivity |].
      simpl. unfold is_restore at 1. rewrite He. exact IH.
    + unfold bind. destruct tgt as [target |]; [| discriminate].
      assert (Htg : Py.truthy target = true) by (simpl in Ht; destruct (Py.truthy target); auto).
      pose proof (restore_all_trace R test_mode filtered (Some target) s2) as Hr.
      destruct (restore_all R test_mode filtered (Some target) s2) as [u s3] eqn:Hra.
      exists (e1 ++ map (fun it => (negb test_mode, RRestore (ti_id it) (Some target))) filtered).
      simpl in Hr |- *. rewrite Hr by (destruct test_mode; auto).
      rewrite He1, Htr, app_assoc. split; [reflexivity |].
      assert (Hn : filter is_restore e1 = []).
      { clear -Fa. induction Fa as [| e l He _ IH]; [reflexivity |].
        simpl. unfold is_restore at 1. rewrite He. exact IH. }
      assert (Hm : forall l : list trashed_item,
                 filter is_restore (map (fun it => (negb test_mode, RRestore (ti_id it) (Some target))) l) =
                 map (fun it => (negb test_mode, RRestore (ti_id it) (Some target))) l /\
                 filter is_issued_create (map (fun it => (negb test_mode, RRestore (ti_id it) (Some target))) l) = []).
      { induction l as [| x l [IH1 IH2]]; [split; reflexivity |]. simpl. rewrite IH1, IH2.
        split; [reflexivity |]. destruct test_mode; reflexivity. }
      rewrite !filter_app, Hn, (proj1 (Hm filtered)), (proj2 (Hm filtered)), app_nil_r.
      split; [right; exists target; split; [exact Htg | reflexivity] | exact Hc].
  - exists e1. simpl. rewrite He1, Htr. split; [reflexivity | split; [| exact Hc]].
    left. clear -Fa. induction Fa as [| e l He _ IH]; [reflexivity |].
    simpl. unfold is_restore at 1. rewrite He. exact IH.
Qed.

(** Every restore of one run of the restore phase goes to the same
    non-empty target folder and each filtered item is restored (or, in a
    dry run, logged) exactly once, in order; the only other call is the
    creation of [1Completed], issued at most once although the folder
    can be looked up twice (once to search it, once as fallback target). *)
Theorem restore_phase_calls (R : renv) (test_mode : bool) (filtered : list trashed_item)
    (box_folder_name : option string) (list_only auto_confirm : bool) (response : string) (s : rst) :
  exists extra,
    rtrace (snd (restore_phase R test_mode filtered box_folder_name list_only auto_confirm response s))
      = rtrace s ++ extra /\
    (filter is_restore extra = [] \/
     exists target, Py.truthy target = true /\
       filter is_restore extra = map (fun it => (negb test_mode, RRestore (ti_id it) (Some target))) filtered) /\
    List.length (filter is_issued_create extra) <= 1.
Proof. apply restore_phase_trace_shape. Qed.



Definition no_completed (s : rst) : Prop :=
  root_items s = None \/ exists items, root_items s = Some items /\ find is_completed items = None.

Lemma goc_dry_no_completed R s :
  no_completed s -> fst (get_or_create_completed_folder R true s) = Some None /\
                    no_completed (snd (get_or_create_completed_folder R true s)).
Proof.
  intros Hn. unfold get_or_create_completed_folder, bind, get_root. cbv zeta.
  destruct Hn as [Hr | (items & Hr & Hf)]; rewrite Hr.
  - split; [reflexivity | left; exact Hr].
  - rewrite Hf. split; [reflexivity |]. right. exists items. split; [exact Hr | exact Hf].
Qed.

Lemma find_dry_no_completed R name s :
  no_completed s -> fst (find_case_folder_in_completed R true name s) = Some None /\
                    no_completed (snd (find_case_folder_in_completed R true name s)).
Proof.
  intros Hn. unfold find_case_folder_in_completed, bind.
  destruct (goc_dry_no_completed R s Hn) as [H1 H2].
  destruct (get_or_create_completed_folder R true s) as [c s1]. simpl in H1, H2. subst c.
  split; [reflexivity | exact H2].
Qed.

(** In a dry run where the root has no [1Completed] folder (or cannot be
    listed), the restore phase restores nothing, not even as a
    [[DRY RUN] Would restore] line: the target folder stays unknown and
    the run stops with "no target folder available". *)
Theorem restore_phase_dry_run_without_completed (R : renv) (filtered : list trashed_item)
    (box_folder_name : option string) (list_only auto_confirm : bool) (response : string) (s : rst) :
  no_completed s ->
  exists extra,
    rtrace (snd (restore_phase R true filtered box_folder_name list_only auto_confirm response s))
      = rtrace s ++ extra /\
    filter is_restore extra = [].
Proof.
  intros Hn. unfold restore_phase, bind at 1. cbn [modify snd fst]. set (s1 := mkRSt _ _ _).
  assert (Htr : rtrace s1 = rtrace s) by reflexivity.
  assert (Hn1 : no_completed s1) by exact Hn. clearbody s1.
  destruct list_only.
  { exists []. rewrite app_nil_r. simpl. auto. }
  destruct filtered as [| it rest] eqn:Hfl.
  { exists []. rewrite app_nil_r. simpl. auto. }
  rewrite andb_false_r. cbn [andb]. rewrite <- Hfl. unfold bind at 1.
  pose proof (target_shape R true box_folder_name s1) as (e1 & He1 & Fa & _). cbv zeta in *.
  assert (Hnone : fst ((if opt_truthy box_folder_name then
             r <- find_case_folder_in_completed R true (match box_folder_name with Some n => n | None => "" end) ;;
             match r with
             | None => ret None
             | Some t' => if opt_truthy t' then ret (Some t') else get_or_create_completed_folder R true
             end
           else get_or_create_completed_folder R true) s1) = Some None).
  { destruct (opt_truthy box_folder_name).
    - unfold bind.
      destruct (find_dry_no_completed R (match box_folder_name with Some n => n | None => "" end) s1 Hn1)
        as [F1 F2].
      destruct (find_case_folder_in_completed R true _ s1) as [r s2]. simpl in F1, F2. subst r.
      exact (proj1 (goc_dry_no_completed R s2 F2)).
    - exact (proj1 (goc_dry_no_completed R s1 Hn1)). }
  match goal with
  | He : rtrace (snd (?m s1)) = _ |- _ => destruct (m s1) as [t s2]
  end; simpl in He1, Hnone. subst t. simpl.
  exists e1. rewrite He1, Htr. split; [reflexivity |].
  clear -Fa. induction Fa as [| e l He _ IH]; [reflexivity |].
  simpl. unfold is_restore at 1. rewrite He. exact IH.
Qed.

Lemma restore_phase_dry_run_without_completed_witness :
  let R := mkREnv (fun _ => Some []) None (fun _ => RestoreOk) in
  let s0 := mkRSt (mkRStats 0 0 0) (Some []) [] in
  no_completed s0 /\
  exists extra,
    rtrace (snd (restore_phase R true [mkItem "5" "a.csv" None None None None] (Some "aearep-7") false true "" s0))
      = rtrace s0 ++ extra /\ filter is_restore extra = [].
Proof.
  intros R s0. split.
  - right. exists []. split; reflexivity.
  - apply (restore_phase_dry_run_without_completed R [mkItem "5" "a.csv" None None None None]
             (Some "aearep-7") false true "" s0).
    right. exists []. split; reflexivity.
Defined.

(** A recovery run restores only items of the trash listing that pass
    the date window and the ["aeadata"] user filter and are associated
    with the Box folder id Jira gives for the case (the item is that
    folder, its parent is, the folder is on its path, or its name
    matches the Jira folder name); without a usable folder id it
    restores nothing. *)
Theorem run_restores_only_associated (R : renv) (test_mode : bool) (parse_iso : string -> option Z)
    (cutoff_date : Z) (issue : option (list (string * Recover.jira_value)))
    (all_fields : option (list (string * string))) (trashed_items : list trashed_item)
    (list_only auto_confirm : bool) (response : string) (s : rst) :
  let info := JiraLookup.get_box_info_from_jira issue all_fields in
  exists extra,
    rtrace (snd (run R test_mode parse_iso cutoff_date issue all_fields trashed_items
                     list_only auto_confirm response s)) = rtrace s ++ extra /\
    forall b id tgt, In (b, RRestore id tgt) extra ->
      exists it, ti_id it = id /\ In it trashed_items /\
        date_check parse_iso cutoff_date it = true /\ user_check "aeadata" it = true /\
        TrashProps.associated (fst info) (snd info) it.
Proof.
  intros info. unfold run. fold info. destruct info as [box_folder_id box_folder_name] eqn:Hinfo.
  simpl fst; simpl snd.
  destruct (negb (opt_truthy box_folder_id)) eqn:Hid.
  { exists []. rewrite app_nil_r. split; [reflexivity | intros b id tgt []]. }
  destruct (restore_phase_trace_shape R test_mode
              (filter_trashed_items parse_iso cutoff_date box_folder_id box_folder_name "aeadata" trashed_items)
              box_folder_name list_only auto_confirm response s) as (extra & He & Hr & _).
  exists extra. split; [exact He |].
  intros b id tgt Hin.
  assert (Hf : In (b, RRestore id tgt) (filter is_restore extra)) by (apply filter_In; auto).
  destruct Hr as [Hr | (target & _ & Hr)]; rewrite Hr in Hf; [destruct Hf |].
  apply in_map_iff in Hf as (it & Heq & Hit). injection Heq as _ Hid' _.
  apply FilterProps.filter_trashed_items_In_associated in Hit as (H1 & H2 & H3 & H4).
  exists it. repeat split; auto. apply H4. left. apply negb_false_iff. exact Hid.
Qed.

End RestoreProps.
